(** * supabase-app: the client-side session / data synchronisation logic

    The repository holds several near-duplicate versions of one React
    component, [App]:

    - [src/src/App.jsx] (the same logic is repeated, with different styling,
      as the second version inside [src/unnamed/part_000], lines 268-608);
    - [src/unnamed/part_001];
    - the first version inside [src/unnamed/part_000] (lines 1-266), whose
      text is damaged in several places;
    - the third version inside [src/unnamed/part_000] (lines 610-880).

    Each version is embedded in a module of its own.  The component state
    (the [useState] cells) is a record, every handler is a computation in a
    small state / effect / exception monad, and the hosted backend is a
    record of functions that answers each request. *)

From Stdlib Require Import String Ascii List ZArith Bool Lia.
Import ListNotations.
Local Open Scope string_scope.
Local Open Scope list_scope.

Set Implicit Arguments.

(** ** Data *)

(** A JavaScript error object; only [message] is ever read. *)
Record JsError : Type := mkError { message : string }.

(** [session.user]: the identity the provider reports. *)
Record User : Type := mkUser { uid : string; user_email : string }.

(** [data.session]; [session?.user ?? null] reads its user. *)
Record Session : Type := mkSession { session_user : User }.

(** One row of the [instruments] table. *)
Record Row : Type := mkRow { id : Z; name : string; user_id : string }.

(** One row of the [profiles] table restricted to [select('avatar_url')]. *)
Record Profile : Type := mkProfile { avatar_url : option string }.

(** An entry of [e.target.files]; only [file.name] is read. *)
Record File : Type := mkFile { file_name : string }.

(** supabase-js answers a table read with either [{data, error: null}] or
    [{data: null, error}]. *)
Inductive PostgrestResponse (T : Type) : Type :=
| Success (data : T)
| Failure (error : JsError).
Arguments Failure {T} error.

(** The payload of a [postgres_changes] notification subscribed with
    [event: '*']: a tagged union on [eventType]. *)
Inductive Payload : Type :=
| INSERT (new : Row)
| UPDATE (old new : Row)
| DELETE (old : Row).

(** Everything a handler does besides setting state. *)
Inductive Effect : Type :=
| Alert (msg : string)
| ConsoleError (msg : string)
| ConsoleWarn (msg : string)
| ConsoleLog (msg : string)
| AuthGetSession
| AuthOnAuthStateChange
| AuthSignInWithPassword (email password : string)
| AuthSignUp (email password : string)
| AuthSignInWithOAuth (provider redirectTo : string)
| AuthSignOut
| InstrumentsSelect (owner : string)
| InstrumentsInsert (name owner : string)
| ProfilesSelect (owner : string)
| ProfilesUpsert (owner path : string)
| ProfilesUpdate (owner path : string)
| StorageUpload (path : string) (file : File)
| StorageGetPublicUrl (path : string)
| ChannelSubscribe (filter : string)
| Navigate (href : string).

(** The hosted backend, as seen by one handler run: what each call
    returns.  [storage_getPublicUrl] is computed locally by the client
    library. *)
Record Client : Type := mkClient {
  auth_getSession : option Session;
  auth_signInWithPassword : string -> string -> option JsError;
  auth_signUp : string -> string -> option JsError;
  instruments_select : string -> PostgrestResponse (list Row);
  instruments_insert : string -> string -> option JsError;
  profiles_select_single : string -> PostgrestResponse Profile;
  profiles_upsert : string -> string -> option JsError;
  profiles_update : string -> string -> option JsError;
  storage_upload : string -> File -> option JsError;
  storage_getPublicUrl : string -> string
}.

(** ** JavaScript helpers *)

(** String concatenation, [a + b] and template literals. *)
Infix "+++" := String.append (at level 60, right associativity).

(** Truthiness of a string: only [''] is falsy. *)
Definition truthy (s : string) : bool :=
  match s with EmptyString => false | String _ _ => true end.

(** Truthiness of [data?.avatar_url]: [null] and [''] are falsy. *)
Definition truthy_opt (o : option string) : bool :=
  match o with None => false | Some s => truthy s end.

(** The stored avatar path an answer of the profile read carries: the
    truthy [data?.avatar_url] of a read without error. *)
Definition stored_path (r : PostgrestResponse Profile) : option string :=
  match r with
  | Success data =>
      match avatar_url data with
      | Some path => if truthy path then Some path else None
      | None => None
      end
  | Failure _ => None
  end.

Fixpoint has_dot (s : string) : bool :=
  match s with
  | EmptyString => false
  | String c s' => if Ascii.eqb c "."%char then true else has_dot s'
  end.

(** [s.split('.').pop()]: the text after the last dot, all of [s] when it
    has none. *)
Fixpoint split_dot_pop (s : string) : string :=
  match s with
  | EmptyString => EmptyString
  | String c s' =>
      if has_dot s' then split_dot_pop s'
      else if Ascii.eqb c "."%char then s'
      else s
  end.

(** The [TypeError] of reading [user.id] while [user] is [null]. *)
Definition TypeError_null_id : JsError :=
  mkError "Cannot read properties of null (reading 'id')".

(** ** The handler monad

    A handler runs on a world: the current values of the state cells and
    the effects performed so far (oldest first).  It completes normally or
    by a thrown error; state and effects are kept either way. *)

Record World (S : Type) : Type := mkWorld { state : S; effects : list Effect }.

Inductive Completion (A : Type) : Type :=
| Normal (a : A)
| Thrown (err : JsError).
Arguments Thrown {A} err.

Definition Js (S A : Type) : Type := World S -> Completion A * World S.

Definition ret {S A} (a : A) : Js S A := fun w => (Normal a, w).

Definition bind {S A B} (m : Js S A) (k : A -> Js S B) : Js S B :=
  fun w =>
    match m w with
    | (Normal a, w') => k a w'
    | (Thrown e, w') => (Thrown e, w')
    end.

Definition throw {S A} (e : JsError) : Js S A := fun w => (Thrown e, w).

(** Perform an effect. *)
Definition perform {S} (e : Effect) : Js S unit :=
  fun w => (Normal tt, mkWorld (state w) (effects w ++ [e])).

(** A state setter applied to the current state. *)
Definition update {S} (f : S -> S) : Js S unit :=
  fun w => (Normal tt, mkWorld (f (state w)) (effects w)).

(** A request to the backend: the request is recorded and the answer
    returned. *)
Definition request {S A} (e : Effect) (answer : A) : Js S A :=
  fun w => (Normal answer, mkWorld (state w) (effects w ++ [e])).

(** [try { body } catch (err) { handler }]. *)
Definition try_catch {S A} (body : Js S A) (handler : JsError -> Js S A)
  : Js S A :=
  fun w =>
    match body w with
    | (Normal a, w') => (Normal a, w')
    | (Thrown e, w') => handler e w'
    end.

(** [try { body } finally { fin }]: [fin] runs on every completion of
    [body], which is kept when [fin] completes normally. *)
Definition try_finally {S A} (body : Js S A) (fin : Js S unit) : Js S A :=
  fun w =>
    match body w with
    | (c, w') =>
        match fin w' with
        | (Normal _, w'') => (c, w'')
        | (Thrown e, w'') => (Thrown e, w'')
        end
    end.

(** [user.id]. *)
Definition user_id_of {S} (user : option User) : Js S string :=
  match user with
  | Some u => ret (uid u)
  | None => throw TypeError_null_id
  end.

(** The current values of the state cells; a handler reads the cells it
    closes over when it starts. *)
Definition read {S} : Js S S := fun w => (Normal (state w), w).

(** [if (error) throw error;]. *)
Definition throw_if {S} (error : option JsError) : Js S unit :=
  match error with
  | Some e => throw e
  | None => ret tt
  end.

(** The view the component returns. *)
Inductive View : Type := LoadingView | LoginView | DashboardView.

Declare Scope js_scope.
Delimit Scope js_scope with js.
Notation "x <- m ;; k" := (bind m (fun x => k))
  (at level 100, m at next level, right associativity) : js_scope.
Notation "m ;; k" := (bind m (fun _ => k))
  (at level 100, right associativity) : js_scope.
Local Open Scope js_scope.

(** The world a handler leaves, started on state [s] with no effects yet. *)
Definition run {S A} (m : Js S A) (s : S) : World S :=
  snd (m (mkWorld s [])).

(** How a handler ends, started on state [s]: normally, or by an error
    nobody caught (a rejected promise). *)
Definition completion {S A} (m : Js S A) (s : S) : Completion A :=
  fst (m (mkWorld s [])).

Definition is_alert (e : Effect) : bool :=
  match e with Alert _ => true | _ => false end.

(** The user-visible messages among the effects. *)
Definition alerts (l : list Effect) : list Effect := filter is_alert l.

(** ** The live-update handler

    The callback given to [.on('postgres_changes', ...)] is the same in
    [part_001] (lines 52-66) and in the first and third versions of
    [part_000] (lines 62-77 and 669-679): each branch hands
    [setInstruments] a function of the previous cache. *)
Module Realtime.

(** [(prev) => ...] of the branch taken for [payload]. *)
Definition postgres_changes (payload : Payload) (prev : list Row)
  : list Row :=
  match payload with
  | INSERT new => prev ++ [new]
  | DELETE old => filter (fun item => negb (id item =? id old)%Z) prev
  | UPDATE _ new =>
      map (fun item => if (id item =? id new)%Z then new else item) prev
  end.

(** The cache after a sequence of notifications, delivered in order. *)
Definition deliver (cache : list Row) (ps : list Payload) : list Row :=
  fold_left (fun prev p => postgres_changes p prev) ps cache.

(** *** The replay of the specification

    The ordered collection with the three operations the specification
    names: insert-if-absent, replace-by-id, remove-by-id. *)

Definition present (i : Z) (c : list Row) : bool :=
  existsb (fun item => (id item =? i)%Z) c.

Definition insert_if_absent (r : Row) (c : list Row) : list Row :=
  if present (id r) c then c else c ++ [r].

Definition replace_by_id (r : Row) (c : list Row) : list Row :=
  map (fun item => if (id item =? id r)%Z then r else item) c.

Definition remove_by_id (i : Z) (c : list Row) : list Row :=
  filter (fun item => negb (id item =? i)%Z) c.

Definition replay_step (p : Payload) (c : list Row) : list Row :=
  match p with
  | INSERT new => insert_if_absent new c
  | UPDATE _ new => replace_by_id new c
  | DELETE old => remove_by_id (id old) c
  end.

Definition replay (c : list Row) (ps : list Payload) : list Row :=
  fold_left (fun prev p => replay_step p prev) ps c.

(** No insert notification of [ps] arrives for an identifier that the
    cache holds at that moment. *)
Fixpoint inserts_fresh (c : list Row) (ps : list Payload) : bool :=
  match ps with
  | [] => true
  | p :: ps' =>
      match p with
      | INSERT new => negb (present (id new) c)
      | _ => true
      end && inserts_fresh (postgres_changes p c) ps'
  end.

(** The identifiers carried by the insert notifications of [ps]. *)
Fixpoint inserted_ids (ps : list Payload) : list Z :=
  match ps with
  | [] => []
  | INSERT new :: ps' => id new :: inserted_ids ps'
  | _ :: ps' => inserted_ids ps'
  end.

(** The identifier a notification is about: [payload.new.id] for an
    insert or an update, [payload.old.id] for a delete. *)
Definition payload_id (p : Payload) : Z :=
  match p with
  | INSERT new => id new
  | UPDATE _ new => id new
  | DELETE old => id old
  end.

Definition is_insert (p : Payload) : bool :=
  match p with INSERT _ => true | _ => false end.

End Realtime.

(** ** [src/src/App.jsx] *)
Module AppJsx.

(** The eight [useState] cells (lines 10-17). *)
Record State : Type := mkState {
  email : string;
  password : string;
  user : option User;
  instrumentName : string;
  instruments : list Row;
  avatarUrl : option string;
  uploading : bool;
  loading : bool
}.

(** The initial values given to [useState]. *)
Definition initial : State :=
  mkState "" "" None "" [] None false true.

Definition setEmail (v : string) : Js State unit :=
  update (fun s => mkState v (password s) (user s) (instrumentName s)
                     (instruments s) (avatarUrl s) (uploading s) (loading s)).

Definition setPassword (v : string) : Js State unit :=
  update (fun s => mkState (email s) v (user s) (instrumentName s)
                     (instruments s) (avatarUrl s) (uploading s) (loading s)).

Definition setUser (v : option User) : Js State unit :=
  update (fun s => mkState (email s) (password s) v (instrumentName s)
                     (instruments s) (avatarUrl s) (uploading s) (loading s)).

Definition setInstrumentName (v : string) : Js State unit :=
  update (fun s => mkState (email s) (password s) (user s) v
                     (instruments s) (avatarUrl s) (uploading s) (loading s)).

Definition setInstruments (v : list Row) : Js State unit :=
  update (fun s => mkState (email s) (password s) (user s) (instrumentName s)
                     v (avatarUrl s) (uploading s) (loading s)).

Definition setAvatarUrl (v : option string) : Js State unit :=
  update (fun s => mkState (email s) (password s) (user s) (instrumentName s)
                     (instruments s) v (uploading s) (loading s)).

Definition setUploading (v : bool) : Js State unit :=
  update (fun s => mkState (email s) (password s) (user s) (instrumentName s)
                     (instruments s) (avatarUrl s) v (loading s)).

Definition setLoading (v : bool) : Js State unit :=
  update (fun s => mkState (email s) (password s) (user s) (instrumentName s)
                     (instruments s) (avatarUrl s) (uploading s) v).

(** [fetchInstruments] (lines 51-59); [data || []] is [data], an array
    being truthy. *)
Definition fetchInstruments (sb : Client) (user : User) : Js State unit :=
  r <- request (InstrumentsSelect (uid user))
               (instruments_select sb (uid user)) ;;
  match r with
  | Failure error =>
      perform (ConsoleError ("Error fetching instruments: " +++ message error))
  | Success data => setInstruments data
  end.

(** [fetchProfile] (lines 62-82). *)
Definition fetchProfile (sb : Client) (user : User) : Js State unit :=
  r <- request (ProfilesSelect (uid user))
               (profiles_select_single sb (uid user)) ;;
  match r with
  | Failure error =>
      perform (ConsoleWarn ("No profile found: " +++ message error))
  | Success data =>
      match avatar_url data with
      | Some path =>
          if truthy path then
            publicUrl <- request (StorageGetPublicUrl path)
                                 (storage_getPublicUrl sb path) ;;
            setAvatarUrl (Some publicUrl)
          else setAvatarUrl None
      | None => setAvatarUrl None
      end
  end.

(** The part of [fetchUser] (lines 21-27) that runs once [getSession] has
    resolved with [session]. *)
Definition fetchUser_resume (session : option Session) : Js State unit :=
  setUser (option_map session_user session) ;;
  setLoading false.

Definition fetchUser (sb : Client) : Js State unit :=
  session <- request AuthGetSession (auth_getSession sb) ;;
  fetchUser_resume session.

(** The callback given to [onAuthStateChange] (lines 32-42).  The two
    fetches are not awaited by the callback; they are run to their end in
    place. *)
Definition onAuthStateChange (sb : Client) (session : option Session)
  : Js State unit :=
  setUser (option_map session_user session) ;;
  match session with
  | Some sess =>
      fetchProfile sb (session_user sess) ;;
      fetchInstruments sb (session_user sess)
  | None =>
      setAvatarUrl None ;;
      setInstruments []
  end ;;
  setLoading false.

(** What the mount effect (lines 20-48) does before anything resolves:
    [fetchUser()] sends its request and the listener is registered. *)
Definition mount : Js State unit :=
  perform AuthGetSession ;;
  perform AuthOnAuthStateChange.

(** [handleLogin] (lines 85-98). *)
Definition handleLogin (sb : Client) : Js State unit :=
  s0 <- read ;;
  setLoading true ;;
  try_finally
    (try_catch
       (error <- request (AuthSignInWithPassword (email s0) (password s0))
                         (auth_signInWithPassword sb (email s0) (password s0)) ;;
        throw_if error)
       (fun err => perform (Alert (message err))))
    (setLoading false).

(** [handleSignUp] (lines 101-112). *)
Definition handleSignUp (sb : Client) : Js State unit :=
  s0 <- read ;;
  setLoading true ;;
  try_finally
    (try_catch
       (error <- request (AuthSignUp (email s0) (password s0))
                         (auth_signUp sb (email s0) (password s0)) ;;
        throw_if error ;;
        perform (Alert "Check your email for confirmation!"))
       (fun err => perform (Alert (message err))))
    (setLoading false).

(** [handleGithubLogin] (lines 115-122). *)
Definition handleGithubLogin : Js State unit :=
  perform (AuthSignInWithOAuth "github" "https://supabase-app-bay.vercel.app/").

(** [handleLogout] (lines 125-130). *)
Definition handleLogout : Js State unit :=
  perform AuthSignOut ;;
  setUser None ;;
  setInstruments [] ;;
  setAvatarUrl None.

(** [handleAddInstrument] (lines 133-140). *)
Definition handleAddInstrument (sb : Client) : Js State unit :=
  s0 <- read ;;
  if negb (truthy (instrumentName s0)) then ret tt
  else
    owner <- user_id_of (user s0) ;;
    error <- request (InstrumentsInsert (instrumentName s0) owner)
                     (instruments_insert sb (instrumentName s0) owner) ;;
    match error with
    | Some e => perform (Alert ("Error adding instrument: " +++ message e))
    | None => setInstrumentName ""
    end.

(** [handleAvatarUpload] (lines 143-176); [files] is [e.target.files]. *)
Definition handleAvatarUpload (sb : Client) (files : list File)
  : Js State unit :=
  s0 <- read ;;
  try_finally
    (try_catch
       (setUploading true ;;
        match files with
        | [] => ret tt
        | file :: _ =>
            let fileExt := split_dot_pop (file_name file) in
            owner <- user_id_of (user s0) ;;
            let fileName := owner +++ "." +++ fileExt in
            let filePath := fileName in
            uploadError <- request (StorageUpload filePath file)
                                   (storage_upload sb filePath file) ;;
            throw_if uploadError ;;
            updateError <- request (ProfilesUpsert owner filePath)
                                   (profiles_upsert sb owner filePath) ;;
            throw_if updateError ;;
            publicUrl <- request (StorageGetPublicUrl filePath)
                                 (storage_getPublicUrl sb filePath) ;;
            setAvatarUrl (Some publicUrl)
        end)
       (fun err => perform (Alert ("Avatar upload failed: " +++ message err))))
    (setUploading false).

(** The three returns of the component (lines 178, 180, 244). *)
Definition render (s : State) : View :=
  if loading s then LoadingView
  else match user s with
       | None => LoginView
       | Some _ => DashboardView
       end.

End AppJsx.

(** ** [src/unnamed/part_001] *)
Module Part001.

(** The seven [useState] cells (lines 10-16); this version has no
    [loading] cell. *)
Record State : Type := mkState {
  email : string;
  password : string;
  user : option User;
  instrumentName : string;
  instruments : list Row;
  avatarUrl : option string;
  uploading : bool
}.

Definition initial : State :=
  mkState "" "" None "" [] None false.

Definition setUser (v : option User) : Js State unit :=
  update (fun s => mkState (email s) (password s) v (instrumentName s)
                     (instruments s) (avatarUrl s) (uploading s)).

Definition setInstrumentName (v : string) : Js State unit :=
  update (fun s => mkState (email s) (password s) (user s) v
                     (instruments s) (avatarUrl s) (uploading s)).

(** [setInstruments] called with a function of the previous value. *)
Definition setInstruments_with (f : list Row -> list Row) : Js State unit :=
  update (fun s => mkState (email s) (password s) (user s) (instrumentName s)
                     (f (instruments s)) (avatarUrl s) (uploading s)).

Definition setInstruments (v : list Row) : Js State unit :=
  setInstruments_with (fun _ => v).

Definition setAvatarUrl (v : option string) : Js State unit :=
  update (fun s => mkState (email s) (password s) (user s) (instrumentName s)
                     (instruments s) v (uploading s)).

Definition setUploading (v : bool) : Js State unit :=
  update (fun s => mkState (email s) (password s) (user s) (instrumentName s)
                     (instruments s) (avatarUrl s) v).

(** The part of [fetchUser] (lines 20-25) that runs once [getSession] has
    resolved with [session]. *)
Definition fetchUser_resume (session : option Session) : Js State unit :=
  setUser (option_map session_user session).

Definition fetchUser (sb : Client) : Js State unit :=
  session <- request AuthGetSession (auth_getSession sb) ;;
  fetchUser_resume session.

(** The callback given to [onAuthStateChange] (lines 29-31). *)
Definition onAuthStateChange (session : option Session) : Js State unit :=
  setUser (option_map session_user session).

(** What the mount effect (lines 19-34) does before anything resolves. *)
Definition mount : Js State unit :=
  perform AuthGetSession ;;
  perform AuthOnAuthStateChange.

(** [fetchInstruments] (lines 74-82). *)
Definition fetchInstruments (sb : Client) : Js State unit :=
  s0 <- read ;;
  owner <- user_id_of (user s0) ;;
  r <- request (InstrumentsSelect owner) (instruments_select sb owner) ;;
  match r with
  | Failure error =>
      perform (ConsoleError ("Error fetching instruments: " +++ message error))
  | Success data => setInstruments data
  end.

(** [fetchProfile] (lines 84-97). *)
Definition fetchProfile (sb : Client) : Js State unit :=
  s0 <- read ;;
  owner <- user_id_of (user s0) ;;
  r <- request (ProfilesSelect owner) (profiles_select_single sb owner) ;;
  match r with
  | Failure _ => ret tt
  | Success data =>
      match avatar_url data with
      | Some path =>
          if truthy path then
            publicUrl <- request (StorageGetPublicUrl path)
                                 (storage_getPublicUrl sb path) ;;
            setAvatarUrl (Some publicUrl)
          else ret tt
      | None => ret tt
      end
  end.

(** The callback given to [.on('postgres_changes', ...)] (lines 52-66). *)
Definition on_postgres_changes (payload : Payload) : Js State unit :=
  setInstruments_with (Realtime.postgres_changes payload).

(** The effect on [user] (lines 37-72), up to the subscription. *)
Definition user_effect (sb : Client) : Js State unit :=
  s0 <- read ;;
  match user s0 with
  | Some u =>
      fetchInstruments sb ;;
      fetchProfile sb ;;
      perform (ChannelSubscribe ("user_id=eq." +++ uid u))
  | None => ret tt
  end.

(** [handleLogin] (lines 100-104). *)
Definition handleLogin (sb : Client) : Js State unit :=
  s0 <- read ;;
  error <- request (AuthSignInWithPassword (email s0) (password s0))
                   (auth_signInWithPassword sb (email s0) (password s0)) ;;
  match error with
  | Some e => perform (Alert ("Login failed: " +++ message e))
  | None => perform (Navigate "https://stingray-app-5y3zr.ondigitalocean.app/")
  end.

(** [handleSignUp] (lines 107-111). *)
Definition handleSignUp (sb : Client) : Js State unit :=
  s0 <- read ;;
  error <- request (AuthSignUp (email s0) (password s0))
                   (auth_signUp sb (email s0) (password s0)) ;;
  match error with
  | Some e => perform (Alert ("Sign-up failed: " +++ message e))
  | None => perform (Alert "Check your email for confirmation!")
  end.

(** [handleLogout] (lines 113-117). *)
Definition handleLogout : Js State unit :=
  perform AuthSignOut ;;
  setUser None ;;
  setInstruments [].

(** [handleAddInstrument] (lines 119-126). *)
Definition handleAddInstrument (sb : Client) : Js State unit :=
  s0 <- read ;;
  if negb (truthy (instrumentName s0)) then ret tt
  else
    owner <- user_id_of (user s0) ;;
    error <- request (InstrumentsInsert (instrumentName s0) owner)
                     (instruments_insert sb (instrumentName s0) owner) ;;
    match error with
    | Some e => perform (Alert ("Error adding instrument: " +++ message e))
    | None => setInstrumentName ""
    end.

(** [handleAvatarUpload] (lines 128-157). *)
Definition handleAvatarUpload (sb : Client) (files : list File)
  : Js State unit :=
  s0 <- read ;;
  try_finally
    (try_catch
       (setUploading true ;;
        match files with
        | [] => ret tt
        | file :: _ =>
            let fileExt := split_dot_pop (file_name file) in
            owner <- user_id_of (user s0) ;;
            let fileName := owner +++ "." +++ fileExt in
            let filePath := fileName in
            uploadError <- request (StorageUpload filePath file)
                                   (storage_upload sb filePath file) ;;
            throw_if uploadError ;;
            updateError <- request (ProfilesUpsert owner filePath)
                                   (profiles_upsert sb owner filePath) ;;
            throw_if updateError ;;
            publicUrl <- request (StorageGetPublicUrl filePath)
                                 (storage_getPublicUrl sb filePath) ;;
            setAvatarUrl (Some publicUrl)
        end)
       (fun err => perform (Alert ("Avatar upload failed: " +++ message err))))
    (setUploading false).

(** The two returns of the component (lines 160 and 202). *)
Definition render (s : State) : View :=
  match user s with
  | None => LoginView
  | Some _ => DashboardView
  end.

(** The callback run once for each notification of [ps], in order. *)
Fixpoint notifications (ps : list Payload) : Js State unit :=
  match ps with
  | [] => ret tt
  | p :: ps' => on_postgres_changes p ;; notifications ps'
  end.

End Part001.

(** ** The third version in [src/unnamed/part_000] (lines 610-880) *)
Module Part000C.

(** The eight [useState] cells (lines 619-626). *)
Record State : Type := mkState {
  email : string;
  password : string;
  user : option User;
  instrumentName : string;
  instruments : list Row;
  avatarUrl : option string;
  uploading : bool;
  loading : bool
}.

Definition initial : State :=
  mkState "" "" None "" [] None false true.

Definition setUser (v : option User) : Js State unit :=
  update (fun s => mkState (email s) (password s) v (instrumentName s)
                     (instruments s) (avatarUrl s) (uploading s) (loading s)).

Definition setInstruments_with (f : list Row -> list Row) : Js State unit :=
  update (fun s => mkState (email s) (password s) (user s) (instrumentName s)
                     (f (instruments s)) (avatarUrl s) (uploading s)
                     (loading s)).

Definition setInstruments (v : list Row) : Js State unit :=
  setInstruments_with (fun _ => v).

Definition setAvatarUrl (v : option string) : Js State unit :=
  update (fun s => mkState (email s) (password s) (user s) (instrumentName s)
                     (instruments s) v (uploading s) (loading s)).

Definition setUploading (v : bool) : Js State unit :=
  update (fun s => mkState (email s) (password s) (user s) (instrumentName s)
                     (instruments s) (avatarUrl s) v (loading s)).

(** The callback given to [.on('postgres_changes', ...)] (lines 669-679). *)
Definition on_postgres_changes (payload : Payload) : Js State unit :=
  setInstruments_with (Realtime.postgres_changes payload).

(** [fetchAvatar] (lines 699-716); [publicData?.publicUrl ?? null] is the
    URL, which the client library always returns. *)
Definition fetchAvatar (sb : Client) : Js State unit :=
  s0 <- read ;;
  match user s0 with
  | None => ret tt
  | Some u =>
      r <- request (ProfilesSelect (uid u))
                   (profiles_select_single sb (uid u)) ;;
      match r with
      | Failure _ => setAvatarUrl None
      | Success data =>
          match avatar_url data with
          | Some path =>
              if truthy path then
                publicUrl <- request (StorageGetPublicUrl path)
                                     (storage_getPublicUrl sb path) ;;
                setAvatarUrl (Some publicUrl)
              else setAvatarUrl None
          | None => setAvatarUrl None
          end
      end
  end.

(** [handleLogout] (lines 747-752); the call [setAvatarUrl(null)] is
    commented out there. *)
Definition handleLogout : Js State unit :=
  perform AuthSignOut ;;
  setUser None ;;
  setInstruments [].

(** [handleAvatarUpload] (lines 767-797). *)
Definition handleAvatarUpload (sb : Client) (files : list File)
  : Js State unit :=
  s0 <- read ;;
  try_finally
    (try_catch
       (setUploading true ;;
        match files with
        | [] => ret tt
        | file :: _ =>
            let fileExt := split_dot_pop (file_name file) in
            owner <- user_id_of (user s0) ;;
            let filePath := "avatars/" +++ owner +++ "." +++ fileExt in
            uploadError <- request (StorageUpload filePath file)
                                   (storage_upload sb filePath file) ;;
            throw_if uploadError ;;
            updateError <- request (ProfilesUpdate owner filePath)
                                   (profiles_update sb owner filePath) ;;
            throw_if updateError ;;
            publicUrl <- request (StorageGetPublicUrl filePath)
                                 (storage_getPublicUrl sb filePath) ;;
            setAvatarUrl (Some publicUrl)
        end)
       (fun err => perform (Alert ("Avatar upload failed: " +++ message err))))
    (setUploading false).

Definition setInstrumentName (v : string) : Js State unit :=
  update (fun s => mkState (email s) (password s) (user s) v
                     (instruments s) (avatarUrl s) (uploading s) (loading s)).

Definition setLoading (v : bool) : Js State unit :=
  update (fun s => mkState (email s) (password s) (user s) (instrumentName s)
                     (instruments s) (avatarUrl s) (uploading s) v).

(** [fetchUser] (lines 630-641); the error object handed to
    [console.error] is shown by its message. *)
Definition fetchUser (sb : Client) : Js State unit :=
  try_finally
    (try_catch
       (session <- request AuthGetSession (auth_getSession sb) ;;
        setUser (option_map session_user session))
       (fun error =>
          perform (ConsoleError ("Error fetching user: " +++ message error))))
    (setLoading false).

(** The callback given to [onAuthStateChange] (lines 645-648). *)
Definition onAuthStateChange (session : option Session) : Js State unit :=
  setUser (option_map session_user session) ;;
  setLoading false.

(** [fetchInstruments] (lines 688-696); [data || []] is [data], an array
    being truthy. *)
Definition fetchInstruments (sb : Client) : Js State unit :=
  s0 <- read ;;
  owner <- user_id_of (user s0) ;;
  r <- request (InstrumentsSelect owner) (instruments_select sb owner) ;;
  match r with
  | Failure error =>
      perform (ConsoleError ("Error fetching instruments: " +++ message error))
  | Success data => setInstruments data
  end.

(** The effect on [user] (lines 654-685), up to the subscription. *)
Definition user_effect (sb : Client) : Js State unit :=
  s0 <- read ;;
  match user s0 with
  | Some u =>
      fetchInstruments sb ;;
      fetchAvatar sb ;;
      perform (ChannelSubscribe ("user_id=eq." +++ uid u))
  | None => ret tt
  end.

(** [handleLogin] (lines 719-730); of [console.log('Login response:',
    data)] the label is kept. *)
Definition handleLogin (sb : Client) : Js State unit :=
  s0 <- read ;;
  setLoading true ;;
  try_finally
    (try_catch
       (error <- request (AuthSignInWithPassword (email s0) (password s0))
                         (auth_signInWithPassword sb (email s0) (password s0)) ;;
        match error with
        | Some e => throw (mkError (message e))
        | None => perform (ConsoleLog "Login response:")
        end)
       (fun error => perform (Alert (message error))))
    (setLoading false).

(** [handleSignUp] (lines 733-744). *)
Definition handleSignUp (sb : Client) : Js State unit :=
  s0 <- read ;;
  setLoading true ;;
  try_finally
    (try_catch
       (error <- request (AuthSignUp (email s0) (password s0))
                         (auth_signUp sb (email s0) (password s0)) ;;
        match error with
        | Some e => throw (mkError (message e))
        | None => perform (Alert "Check your email for confirmation!")
        end)
       (fun error => perform (Alert (message error))))
    (setLoading false).

(** [handleAddInstrument] (lines 755-764). *)
Definition handleAddInstrument (sb : Client) : Js State unit :=
  s0 <- read ;;
  if negb (truthy (instrumentName s0)) then ret tt
  else
    owner <- user_id_of (user s0) ;;
    error <- request (InstrumentsInsert (instrumentName s0) owner)
                     (instruments_insert sb (instrumentName s0) owner) ;;
    match error with
    | Some e => perform (Alert ("Error adding instrument: " +++ message e))
    | None => setInstrumentName ""
    end.

(** The three returns of the component (lines 799, 801, 839). *)
Definition render (s : State) : View :=
  if loading s then LoadingView
  else match user s with
       | None => LoginView
       | Some _ => DashboardView
       end.

End Part000C.

(** ** The life of the [src/src/App.jsx] component

    What can happen to the mounted component, one event at a time: the
    mount effect, the resolution of the initial [getSession], a provider
    notification, and the user acting on a control of the view on
    screen.  A handler started by an event runs to its end before the next
    event. *)
Module Lifecycle.
Import AppJsx.

Inductive Event : Type :=
| Mount
| GetSessionResolved (session : option Session)
| AuthStateChange (session : option Session)
| InputEmail (v : string)
| InputPassword (v : string)
| ClickLogin
| ClickSignUp
| ClickGithubLogin
| ClickLogout
| ChangeAvatarInput (files : list File)
| InputInstrumentName (v : string)
| ClickAdd.

Record App : Type := mkApp {
  world : World State;
  mounted : bool;
  session_pending : bool
}.

(** Before the first render. *)
Definition start : App := mkApp (mkWorld initial []) false false.

(** The controls of each view (lines 220-238 and 247-283); the two
    credential buttons carry [disabled={loading}] and the file input
    [disabled={uploading}]. *)
Definition offers (s : State) (ev : Event) : bool :=
  match render s, ev with
  | LoginView, (InputEmail _ | InputPassword _ | ClickGithubLogin) => true
  | LoginView, (ClickLogin | ClickSignUp) => negb (loading s)
  | DashboardView, (ClickLogout | InputInstrumentName _ | ClickAdd) => true
  | DashboardView, ChangeAvatarInput _ => negb (uploading s)
  | _, _ => false
  end.

(** The handler bound to a control. *)
Definition handler (sb : Client) (ev : Event) : Js State unit :=
  match ev with
  | InputEmail v => setEmail v
  | InputPassword v => setPassword v
  | ClickLogin => handleLogin sb
  | ClickSignUp => handleSignUp sb
  | ClickGithubLogin => handleGithubLogin
  | ClickLogout => handleLogout
  | ChangeAvatarInput files => handleAvatarUpload sb files
  | InputInstrumentName v => setInstrumentName v
  | ClickAdd => handleAddInstrument sb
  | Mount | GetSessionResolved _ | AuthStateChange _ => ret tt
  end.

Definition after (m : Js State unit) (a : App) : World State :=
  snd (m (world a)).

(** One event, with the backend [sb] answering the handler it starts;
    [None] when the event cannot happen in [a]. *)
Definition step (sb : Client) (ev : Event) (a : App) : option App :=
  match ev with
  | Mount =>
      if mounted a then None
      else Some (mkApp (after mount a) true true)
  | GetSessionResolved session =>
      if session_pending a
      then Some (mkApp (after (fetchUser_resume session) a) (mounted a) false)
      else None
  | AuthStateChange session =>
      if mounted a
      then Some (mkApp (after (onAuthStateChange sb session) a)
                       (mounted a) (session_pending a))
      else None
  | _ =>
      if offers (state (world a)) ev
      then Some (mkApp (after (handler sb ev) a)
                       (mounted a) (session_pending a))
      else None
  end.

Fixpoint exec (tr : list (Client * Event)) (a : App) : option App :=
  match tr with
  | [] => Some a
  | (sb, ev) :: tr' =>
      match step sb ev a with
      | Some a' => exec tr' a'
      | None => None
      end
  end.

(** The events that end the wait for the session. *)
Definition resolves (ev : Event) : bool :=
  match ev with
  | GetSessionResolved _ | AuthStateChange _ => true
  | _ => false
  end.

Definition is_getSession (e : Effect) : bool :=
  match e with AuthGetSession => true | _ => false end.

(** How many times [getSession] was requested. *)
Definition getSession_count (l : list Effect) : nat :=
  length (filter is_getSession l).

(** The events whose handler calls [setUser]. *)
Definition sets_user (ev : Event) : bool :=
  match ev with
  | GetSessionResolved _ | AuthStateChange _ | ClickLogout => true
  | _ => false
  end.

(** The events whose handler calls [setInstruments]. *)
Definition sets_instruments (ev : Event) : bool :=
  match ev with
  | AuthStateChange _ | ClickLogout => true
  | _ => false
  end.

(** The events whose handler calls [setAvatarUrl]. *)
Definition sets_avatarUrl (ev : Event) : bool :=
  match ev with
  | AuthStateChange _ | ClickLogout | ChangeAvatarInput _ => true
  | _ => false
  end.

End Lifecycle.

(** ** Concrete values used in the examples below *)
Module Examples.

Definition alice : User := mkUser "a1" "alice@example.org".
Definition bob : User := mkUser "b2" "bob@example.org".

Definition guitar : Row := mkRow 1 "guitar" "a1".
Definition guitar' : Row := mkRow 1 "bass guitar" "a1".
Definition piano : Row := mkRow 2 "piano" "a1".
Definition drums : Row := mkRow 3 "drums" "a1".

Definition photo : File := mkFile "me.holiday.png".

Definition alice_avatar : string :=
  "https://example.supabase.co/storage/v1/object/public/avatars/a1.png".

Definition refused : JsError := mkError "Invalid login credentials".
Definition unreachable : JsError := mkError "Failed to fetch".
Definition denied : JsError :=
  mkError "new row violates row-level security policy".

(** A backend that refuses the sign-in, fails both table reads, stores the
    uploaded object and refuses the profile write. *)
Definition failing : Client :=
  mkClient None
    (fun _ _ => Some refused) (fun _ _ => None)
    (fun _ => Failure unreachable) (fun _ _ => None)
    (fun _ => Failure unreachable)
    (fun _ _ => Some denied) (fun _ _ => Some denied)
    (fun _ _ => None)
    (fun path =>
       "https://example.supabase.co/storage/v1/object/public/avatars/"
       +++ path).

(** A backend where every call succeeds; the profile holds no avatar
    path. *)
Definition healthy : Client :=
  mkClient (Some (mkSession bob))
    (fun _ _ => None) (fun _ _ => None)
    (fun _ => Success [piano]) (fun _ _ => None)
    (fun _ => Success (mkProfile None))
    (fun _ _ => None) (fun _ _ => None)
    (fun _ _ => None)
    (fun path =>
       "https://example.supabase.co/storage/v1/object/public/avatars/"
       +++ path).

(** [src/src/App.jsx]: alice's dashboard with one row and her avatar. *)
Definition alice_home : AppJsx.State :=
  AppJsx.mkState "alice@example.org" "secret" (Some alice) "" [guitar]
                 (Some alice_avatar) false false.

(** [src/src/App.jsx]: the login form, filled in. *)
Definition login_form : AppJsx.State :=
  AppJsx.mkState "alice@example.org" "wrong" None "" [] None false false.

(** [part_001]: alice's dashboard with one row and her avatar. *)
Definition alice_home_001 : Part001.State :=
  Part001.mkState "alice@example.org" "secret" (Some alice) "" [guitar]
                  (Some alice_avatar) false.

(** [part_001]: bob has just signed in after alice signed out. *)
Definition bob_after_alice_001 : Part001.State :=
  Part001.mkState "bob@example.org" "secret" (Some bob) "" []
                  (Some alice_avatar) false.


(** The third version of [part_000]: alice's dashboard. *)
Definition alice_home_000C : Part000C.State :=
  Part000C.mkState "alice@example.org" "secret" (Some alice) "" [guitar]
                   (Some alice_avatar) false false.

(** A backend whose object storage refuses the upload. *)
Definition storage_down : Client :=
  mkClient None
    (fun _ _ => None) (fun _ _ => Some refused)
    (fun _ => Success [piano; drums]) (fun _ _ => Some denied)
    (fun _ => Success (mkProfile (Some "a1.png")))
    (fun _ _ => None) (fun _ _ => None)
    (fun _ _ => Some unreachable)
    (fun path =>
       "https://example.supabase.co/storage/v1/object/public/avatars/"
       +++ path).

(** [src/src/App.jsx]: a dashboard whose user cell is empty, with a name
    typed in. *)
Definition no_user_typed : AppJsx.State :=
  AppJsx.mkState "" "" None "oboe" [] None false false.

(** [src/src/App.jsx]: alice has typed a name. *)
Definition alice_typed : AppJsx.State :=
  AppJsx.mkState "alice@example.org" "secret" (Some alice) "oboe" [guitar]
                 (Some alice_avatar) false false.

End Examples.

(** * Properties *)

(** Unfolding a handler run down to the backend answers it depends on. *)
Create HintDb js discriminated.
#[global] Hint Unfold run bind ret throw perform update request try_catch
  try_finally read throw_if user_id_of
  AppJsx.setEmail AppJsx.setPassword AppJsx.setUser AppJsx.setInstrumentName
  AppJsx.setInstruments AppJsx.setAvatarUrl AppJsx.setUploading
  AppJsx.setLoading
  Part001.setUser Part001.setInstrumentName Part001.setInstruments_with
  Part001.setInstruments Part001.setAvatarUrl Part001.setUploading
  Part000C.setUser Part000C.setInstruments_with Part000C.setInstruments
  Part000C.setAvatarUrl Part000C.setUploading Part000C.setInstrumentName
  Part000C.setLoading : js.

Ltac js_run :=
  repeat (autounfold with js;
          cbn beta iota zeta delta [fst snd state effects]).

(** Use the answer [H] of the backend and go on. *)
Ltac js_answer H := rewrite ?H; js_run.

(** Case analysis on every answer a run depends on. *)
Ltac split_answers :=
  repeat match goal with
         | |- context [match ?x with _ => _ end] =>
             lazymatch x with
             | context [match _ with _ => _ end] => fail
             | _ => destruct x; js_run
             end
         end.


(** The same, keeping an equation for every answer. *)
Ltac split_answers_eq :=
  repeat match goal with
         | |- context [match ?x with _ => _ end] =>
             lazymatch x with
             | context [match _ with _ => _ end] => fail
             | _ => destruct x eqn:?; js_run
             end
         end.

Ltac count_done :=
  unfold Lifecycle.getSession_count; rewrite ?filter_app; simpl;
  rewrite ?app_nil_r; reflexivity.

(** ** JavaScript helpers *)
Module HelperFacts.

Example split_dot_pop_two_dots : split_dot_pop "me.holiday.png" = "png".
Proof. reflexivity. Qed.

Example split_dot_pop_no_dot : split_dot_pop "portrait" = "portrait".
Proof. reflexivity. Qed.

Example split_dot_pop_trailing_dot : split_dot_pop "portrait." = "".
Proof. reflexivity. Qed.

(** The text after the last dot holds no dot. *)
Lemma split_dot_pop_has_no_dot (s : string) : has_dot (split_dot_pop s) = false.
Proof.
  induction s as [|c s IH]; simpl; [reflexivity|].
  destruct (has_dot s) eqn:Hd; [exact IH|].
  destruct (Ascii.eqb c ".") eqn:Hc; [exact Hd|].
  simpl. now rewrite Hc.
Qed.

End HelperFacts.

(** ** The live-update handler *)
Module RealtimeFacts.
Import Realtime.

Lemma present_false_iff (i : Z) (c : list Row) :
  present i c = false <-> forall item, In item c -> id item <> i.
Proof.
  unfold present. induction c as [|r c IH]; simpl.
  - split; [intros _ item [] | reflexivity].
  - rewrite orb_false_iff, IH, Z.eqb_neq. split.
    + intros [Hr Hc] item [<- | Hin]; auto.
    + intros H. split; [apply H; now left | intros item Hin; apply H; now right].
Qed.

Lemma present_app (i : Z) (c d : list Row) :
  present i (c ++ d) = present i c || present i d.
Proof. unfold present. apply existsb_app. Qed.

(** Replacing by identifier keeps the identifiers where they are. *)
Lemma map_id_replace (new : Row) (c : list Row) :
  map id (map (fun item => if (id item =? id new)%Z then new else item) c)
  = map id c.
Proof.
  induction c as [|r c IH]; simpl; [reflexivity|].
  rewrite IH. destruct (Z.eqb_spec (id r) (id new)) as [E|E]; congruence.
Qed.

Lemma present_map_id (i : Z) (c : list Row) :
  present i c = existsb (Z.eqb i) (map id c).
Proof.
  unfold present. induction c as [|r c IH]; simpl; [reflexivity|].
  now rewrite IH, (Z.eqb_sym (id r) i).
Qed.

(** No branch of the handler brings in an identifier other than the one
    an insert notification carries. *)
Lemma present_after (p : Payload) (c : list Row) (i : Z) :
  present i (postgres_changes p c) = true ->
  present i c = true \/ (exists new, p = INSERT new /\ id new = i).
Proof.
  destruct p as [new | old new | old]; simpl.
  - rewrite present_app, orb_true_iff. intros [H | H]; [now left|].
    right. exists new. split; [reflexivity|].
    unfold present in H. simpl in H. rewrite orb_false_r in H.
    now apply Z.eqb_eq.
  - rewrite (present_map_id i (map _ c)), map_id_replace, <- present_map_id.
    now left.
  - intros H. left. unfold present in *.
    apply existsb_exists in H. destruct H as [item [Hin Hid]].
    apply filter_In in Hin. apply existsb_exists. exists item. tauto.
Qed.

(** On a cache that lacks the identifier, the handler's insert branch and
    insert-if-absent agree; the other two branches are the replay's. *)
Lemma step_agrees (p : Payload) (c : list Row) :
  match p with INSERT new => present (id new) c = false | _ => True end ->
  postgres_changes p c = replay_step p c.
Proof.
  destruct p as [new | old new | old]; simpl; try reflexivity.
  intros H. unfold insert_if_absent. now rewrite H.
Qed.

Lemma deliver_replay_from (ps : list Payload) :
  forall c, inserts_fresh c ps = true -> deliver c ps = replay c ps.
Proof.
  unfold deliver, replay.
  induction ps as [|p ps IH]; intros c H; simpl in *; [reflexivity|].
  apply andb_true_iff in H. destruct H as [Hp Hps].
  rewrite <- (step_agrees p c).
  - now apply IH.
  - destruct p; auto. now apply negb_true_iff.
Qed.

(** Pairwise distinct insert identifiers, none of them in the cache, make
    every insert fresh. *)
Lemma distinct_inserts_fresh (ps : list Payload) :
  forall c,
    NoDup (inserted_ids ps) ->
    (forall i, In i (inserted_ids ps) -> present i c = false) ->
    inserts_fresh c ps = true.
Proof.
  induction ps as [|p ps IH]; intros c Hnd Hc; simpl; [reflexivity|].
  apply andb_true_iff. split.
  - destruct p as [new | |]; auto.
    apply negb_true_iff, Hc. simpl. now left.
  - apply IH.
    + destruct p; simpl in Hnd; auto. now inversion Hnd.
    + intros i Hi.
      destruct (present i (postgres_changes p c)) eqn:E; [|reflexivity].
      apply present_after in E. destruct E as [E | [new [-> <-]]].
      * rewrite Hc in E; [discriminate|].
        destruct p; simpl; auto.
      * simpl in Hnd. inversion Hnd. contradiction.
Qed.

Lemma distinct_inserts_replay (ps : list Payload) :
  NoDup (inserted_ids ps) -> deliver [] ps = replay [] ps.
Proof.
  intros H. apply deliver_replay_from, distinct_inserts_fresh; auto.
Qed.

(** The handlers of [part_001] and of the third version of [part_000]
    apply the branch to the cache cell and touch nothing else. *)
Lemma on_postgres_changes_001 (p : Payload) (s : Part001.State) :
  Part001.instruments (state (run (Part001.on_postgres_changes p) s))
  = postgres_changes p (Part001.instruments s).
Proof. reflexivity. Qed.

Lemma on_postgres_changes_000C (p : Payload) (s : Part000C.State) :
  Part000C.instruments (state (run (Part000C.on_postgres_changes p) s))
  = postgres_changes p (Part000C.instruments s).
Proof. reflexivity. Qed.

(** C1, as the specification words it, fails: the insert branch appends
    without looking, so a second insert notification for identifier 1
    leaves two rows with that identifier where the replay keeps one. *)
Lemma insert_twice_duplicates :
  let ps := [INSERT Examples.guitar; INSERT Examples.guitar'] in
  deliver [] ps = [Examples.guitar; Examples.guitar']
  /\ replay [] ps = [Examples.guitar]
  /\ deliver [] ps <> replay [] ps
  /\ present (id Examples.guitar') [Examples.guitar] = true
  /\ length (postgres_changes (INSERT Examples.guitar') [Examples.guitar]) = 2%nat.
Proof.
  cbv zeta. repeat split; try reflexivity. discriminate.
Qed.

(** C1 (amended): for every sequence of insert / update / delete
    notifications in which no insert arrives for an identifier the cache
    holds at that moment, the handler's branches applied in order to the
    empty cache give the ordered collection that the replay with
    insert-if-absent, replace-by-id and remove-by-id gives; the insert
    branch itself always appends the new row at the end. *)
Theorem deliver_equals_replay (ps : list Payload) :
  inserts_fresh [] ps = true ->
  deliver [] ps = replay [] ps
  /\ forall c new, postgres_changes (INSERT new) c = c ++ [new].
Proof.
  intros H. split; [now apply deliver_replay_from | reflexivity].
Qed.

Lemma deliver_equals_replay_witness :
  let ps := [INSERT Examples.guitar; INSERT Examples.piano;
             UPDATE Examples.guitar Examples.guitar';
             DELETE Examples.piano; INSERT Examples.drums] in
  inserts_fresh [] ps = true
  /\ deliver [] ps = [Examples.guitar'; Examples.drums]
  /\ deliver [] ps = replay [] ps.
Proof.
  cbv zeta. split; [reflexivity | split; [reflexivity|]].
  apply (deliver_equals_replay
           [INSERT Examples.guitar; INSERT Examples.piano;
            UPDATE Examples.guitar Examples.guitar';
            DELETE Examples.piano; INSERT Examples.drums]).
  reflexivity.
Defined.

(** C8: an update notification whose identifier matches no cached row
    leaves the cache as it is, and so does a delete notification whose
    identifier matches none; an update keeps the length of the cache and
    every row whose identifier differs from the notification's. *)
Theorem unmatched_notifications_and_update_frame
  (cache : list Row) (old new : Row) :
  (present (id new) cache = false ->
   postgres_changes (UPDATE old new) cache = cache)
  /\ (present (id old) cache = false ->
      postgres_changes (DELETE old) cache = cache)
  /\ length (postgres_changes (UPDATE old new) cache) = length cache
  /\ (forall k item,
        nth_error cache k = Some item -> id item <> id new ->
        nth_error (postgres_changes (UPDATE old new) cache) k = Some item).
Proof.
  simpl. repeat split.
  - intros H. rewrite present_false_iff in H.
    rewrite <- (map_id cache) at 2. apply map_ext_in. intros item Hin.
    destruct (Z.eqb_spec (id item) (id new)) as [E|E]; [|reflexivity].
    now apply H in Hin.
  - intros H. rewrite present_false_iff in H.
    apply forallb_filter_id, forallb_forall. intros item Hin.
    apply negb_true_iff, Z.eqb_neq. now apply H.
  - apply length_map.
  - intros k item Hk Hid. rewrite nth_error_map, Hk. simpl.
    apply Z.eqb_neq in Hid. now rewrite Hid.
Qed.

Lemma unmatched_notifications_and_update_frame_witness :
  let cache := [Examples.guitar; Examples.piano] in
  present (id Examples.drums) cache = false
  /\ postgres_changes (UPDATE Examples.drums Examples.drums) cache = cache
  /\ postgres_changes (DELETE Examples.drums) cache = cache
  /\ nth_error (postgres_changes (UPDATE Examples.guitar Examples.guitar') cache) 1
     = Some Examples.piano.
Proof.
  cbv zeta.
  pose proof (unmatched_notifications_and_update_frame
                [Examples.guitar; Examples.piano]
                Examples.drums Examples.drums) as [Hu [Hd _]].
  pose proof (unmatched_notifications_and_update_frame
                [Examples.guitar; Examples.piano]
                Examples.guitar Examples.guitar') as [_ [_ [_ Hk]]].
  split; [reflexivity|].
  split; [apply Hu; reflexivity|].
  split; [apply Hd; reflexivity|].
  apply Hk; [reflexivity | simpl; lia].
Defined.

End RealtimeFacts.

(** ** Logging out *)
Module LogoutFacts.

(** [src/src/App.jsx]: logging out empties the cache and withdraws the
    avatar and the user, whatever the state was. *)
Lemma handleLogout_clears (s : AppJsx.State) :
  let w := run AppJsx.handleLogout s in
  AppJsx.user (state w) = None
  /\ AppJsx.instruments (state w) = []
  /\ AppJsx.avatarUrl (state w) = None
  /\ effects w = [AuthSignOut].
Proof. repeat split. Qed.

(** [part_001]: logging out empties the cache and leaves the avatar cell
    as it was. *)
Lemma handleLogout_001 (s : Part001.State) :
  let w := run Part001.handleLogout s in
  Part001.user (state w) = None
  /\ Part001.instruments (state w) = []
  /\ Part001.avatarUrl (state w) = Part001.avatarUrl s.
Proof. repeat split. Qed.

(** The third version of [part_000]: the same. *)
Lemma handleLogout_000C (s : Part000C.State) :
  let w := run Part000C.handleLogout s in
  Part000C.user (state w) = None
  /\ Part000C.instruments (state w) = []
  /\ Part000C.avatarUrl (state w) = Part000C.avatarUrl s.
Proof. repeat split. Qed.

(** C2 does not hold in [part_001] nor in the third version of
    [part_000]: after alice logs out of her dashboard the cache is empty
    but her avatar URL is still published. *)
Theorem logout_leaves_avatar :
  (let w := run Part001.handleLogout Examples.alice_home_001 in
   Part001.instruments (state w) = []
   /\ Part001.avatarUrl (state w) = Some Examples.alice_avatar)
  /\ (let w := run Part000C.handleLogout Examples.alice_home_000C in
      Part000C.instruments (state w) = []
      /\ Part000C.avatarUrl (state w) = Some Examples.alice_avatar).
Proof. repeat split. Qed.

End LogoutFacts.

(** ** The avatar resolver *)
Module AvatarFacts.

(** [src/src/App.jsx]: a profile that was read and holds no path makes
    the resolver publish "no avatar". *)
Lemma fetchProfile_no_path (sb : Client) (u : User) (s : AppJsx.State) data :
  profiles_select_single sb (uid u) = Success data ->
  truthy_opt (avatar_url data) = false ->
  AppJsx.avatarUrl (state (run (AppJsx.fetchProfile sb u) s)) = None.
Proof.
  intros Hr Hp. unfold AppJsx.fetchProfile. js_run. js_answer Hr.
  destruct (avatar_url data) as [path|]; simpl in *; [|reflexivity].
  rewrite Hp. reflexivity.
Qed.

(** [src/src/App.jsx]: a failed profile read is logged and the state is
    left as it was. *)
Lemma fetchProfile_read_error (sb : Client) (u : User) (s : AppJsx.State) e :
  profiles_select_single sb (uid u) = Failure e ->
  run (AppJsx.fetchProfile sb u) s
  = mkWorld s [ProfilesSelect (uid u);
               ConsoleWarn ("No profile found: " +++ message e)].
Proof.
  intros Hr. unfold AppJsx.fetchProfile. js_run. js_answer Hr.
  reflexivity.
Qed.

(** [part_001]: without a stored path the resolver sets nothing. *)
Lemma fetchProfile_001_no_path (sb : Client) (u : User) (s : Part001.State) :
  Part001.user s = Some u ->
  stored_path (profiles_select_single sb (uid u)) = None ->
  state (run (Part001.fetchProfile sb) s) = s.
Proof.
  intros Hu Hp. unfold Part001.fetchProfile. js_run. js_answer Hu.
  destruct (profiles_select_single sb (uid u)) as [data|e]; simpl in *;
    [|reflexivity].
  destruct (avatar_url data) as [path|]; [|reflexivity].
  destruct (truthy path); [discriminate | reflexivity].
Qed.

(** The third version of [part_000]: without a stored path, or on a
    failed read, [fetchAvatar] publishes "no avatar". *)
Lemma fetchAvatar_000C_no_path (sb : Client) (u : User) (s : Part000C.State) :
  Part000C.user s = Some u ->
  stored_path (profiles_select_single sb (uid u)) = None ->
  Part000C.avatarUrl (state (run (Part000C.fetchAvatar sb) s)) = None.
Proof.
  intros Hu Hp. unfold Part000C.fetchAvatar. js_run. js_answer Hu.
  destruct (profiles_select_single sb (uid u)) as [data|e]; simpl in *;
    [|reflexivity].
  destruct (avatar_url data) as [path|]; [|reflexivity].
  destruct (truthy path); [discriminate | reflexivity].
Qed.

(** C3 does not hold in [part_001] nor, for a failed read, in
    [src/src/App.jsx]: bob, whose profile holds no path, signs in after
    alice and her avatar URL stays published; and a failed profile read
    leaves alice's URL published as well. *)
Theorem resolver_keeps_stale_avatar :
  (stored_path (profiles_select_single Examples.healthy (uid Examples.bob))
   = None
   /\ Part001.avatarUrl
        (state (run (Part001.fetchProfile Examples.healthy)
                    Examples.bob_after_alice_001))
      = Some Examples.alice_avatar)
  /\ (profiles_select_single Examples.failing (uid Examples.bob)
      = Failure Examples.unreachable
      /\ AppJsx.avatarUrl
           (state (run (AppJsx.fetchProfile Examples.failing Examples.bob)
                       Examples.alice_home))
         = Some Examples.alice_avatar
      /\ Part001.avatarUrl
           (state (run (Part001.fetchProfile Examples.failing)
                       Examples.bob_after_alice_001))
         = Some Examples.alice_avatar).
Proof. repeat split. Qed.

End AvatarFacts.

(** ** The upload flow *)
Module UploadFacts.

(** C4: when the storage write succeeds and the profile write that
    follows it fails, the published avatar URL after the run is the one
    from before it, the uploading flag is false, and the run consisted of
    the two writes and one message to the user (no URL was resolved); in
    [src/src/App.jsx], in [part_001] and in the third version of
    [part_000]. *)
Theorem upload_profile_write_fails
  (sb : Client) (file : File) (rest : list File) (u : User) (e : JsError) :
  let path := uid u +++ "." +++ split_dot_pop (file_name file) in
  let path' := "avatars/" +++ uid u +++ "." +++ split_dot_pop (file_name file) in
  (forall s,
     AppJsx.user s = Some u ->
     storage_upload sb path file = None ->
     profiles_upsert sb (uid u) path = Some e ->
     let w := run (AppJsx.handleAvatarUpload sb (file :: rest)) s in
     AppJsx.avatarUrl (state w) = AppJsx.avatarUrl s
     /\ AppJsx.uploading (state w) = false
     /\ effects w = [StorageUpload path file; ProfilesUpsert (uid u) path;
                     Alert ("Avatar upload failed: " +++ message e)])
  /\ (forall s,
        Part001.user s = Some u ->
        storage_upload sb path file = None ->
        profiles_upsert sb (uid u) path = Some e ->
        let w := run (Part001.handleAvatarUpload sb (file :: rest)) s in
        Part001.avatarUrl (state w) = Part001.avatarUrl s
        /\ Part001.uploading (state w) = false
        /\ effects w = [StorageUpload path file; ProfilesUpsert (uid u) path;
                        Alert ("Avatar upload failed: " +++ message e)])
  /\ (forall s,
        Part000C.user s = Some u ->
        storage_upload sb path' file = None ->
        profiles_update sb (uid u) path' = Some e ->
        let w := run (Part000C.handleAvatarUpload sb (file :: rest)) s in
        Part000C.avatarUrl (state w) = Part000C.avatarUrl s
        /\ Part000C.uploading (state w) = false
        /\ effects w = [StorageUpload path' file;
                        ProfilesUpdate (uid u) path';
                        Alert ("Avatar upload failed: " +++ message e)]).
Proof.
  intros path path'. repeat apply conj; intros s Hu Hup Hpr w; subst w.
  - unfold AppJsx.handleAvatarUpload. js_run. js_answer Hu.
    fold path. js_answer Hup. js_answer Hpr. repeat split.
  - unfold Part001.handleAvatarUpload. js_run. js_answer Hu.
    fold path. js_answer Hup. js_answer Hpr. repeat split.
  - unfold Part000C.handleAvatarUpload. js_run. js_answer Hu.
    fold path'. js_answer Hup. js_answer Hpr. repeat split.
Qed.

Lemma upload_profile_write_fails_witness :
  let w := run (AppJsx.handleAvatarUpload Examples.failing [Examples.photo])
               Examples.alice_home in
  AppJsx.user Examples.alice_home = Some Examples.alice
  /\ storage_upload Examples.failing "a1.png" Examples.photo = None
  /\ profiles_upsert Examples.failing "a1" "a1.png" = Some Examples.denied
  /\ AppJsx.avatarUrl (state w) = Some Examples.alice_avatar
  /\ AppJsx.uploading (state w) = false.
Proof.
  cbv zeta.
  destruct (upload_profile_write_fails Examples.failing Examples.photo []
              Examples.alice Examples.denied) as [H _].
  specialize (H Examples.alice_home eq_refl eq_refl eq_refl).
  cbv zeta in H. destruct H as [Ha [Hu _]].
  split; [reflexivity|]. split; [reflexivity|]. split; [reflexivity|].
  split; [exact Ha | exact Hu].
Defined.

(** C9: with no file selected the handler sends nothing to storage,
    writes no profile, resolves no URL and shows no message (it performs
    no effect at all); the published avatar URL is the one from before and
    the uploading flag is false afterwards; in [src/src/App.jsx], in
    [part_001] and in the third version of [part_000]. *)
Theorem upload_without_file (sb : Client) :
  (forall s,
     let w := run (AppJsx.handleAvatarUpload sb []) s in
     effects w = []
     /\ AppJsx.avatarUrl (state w) = AppJsx.avatarUrl s
     /\ AppJsx.uploading (state w) = false)
  /\ (forall s,
        let w := run (Part001.handleAvatarUpload sb []) s in
        effects w = []
        /\ Part001.avatarUrl (state w) = Part001.avatarUrl s
        /\ Part001.uploading (state w) = false)
  /\ (forall s,
        let w := run (Part000C.handleAvatarUpload sb []) s in
        effects w = []
        /\ Part000C.avatarUrl (state w) = Part000C.avatarUrl s
        /\ Part000C.uploading (state w) = false).
Proof. repeat split. Qed.

End UploadFacts.

(** ** Signing in *)
Module LoginFacts.

(** C5: from the anonymous state (no user, empty cache), a sign-in that
    the provider refuses leaves the user absent and the cache empty and
    shows the user the provider's message; in [src/src/App.jsx] the
    message as it is, in [part_001] after the words "Login failed: ". *)
Theorem refused_login (sb : Client) (e : JsError) :
  (forall s,
     AppJsx.user s = None ->
     AppJsx.instruments s = [] ->
     auth_signInWithPassword sb (AppJsx.email s) (AppJsx.password s) = Some e ->
     let w := run (AppJsx.handleLogin sb) s in
     AppJsx.user (state w) = None
     /\ AppJsx.instruments (state w) = []
     /\ alerts (effects w) = [Alert (message e)])
  /\ (forall s,
        Part001.user s = None ->
        Part001.instruments s = [] ->
        auth_signInWithPassword sb (Part001.email s) (Part001.password s)
        = Some e ->
        let w := run (Part001.handleLogin sb) s in
        Part001.user (state w) = None
        /\ Part001.instruments (state w) = []
        /\ alerts (effects w) = [Alert ("Login failed: " +++ message e)]).
Proof.
  split; intros s Hu Hi Hr w; subst w.
  - unfold AppJsx.handleLogin. js_run. js_answer Hr. simpl. auto.
  - unfold Part001.handleLogin. js_run. js_answer Hr. simpl. auto.
Qed.

Lemma refused_login_witness :
  let w := run (AppJsx.handleLogin Examples.failing) Examples.login_form in
  AppJsx.user Examples.login_form = None
  /\ AppJsx.instruments Examples.login_form = []
  /\ auth_signInWithPassword Examples.failing "alice@example.org" "wrong"
     = Some Examples.refused
  /\ AppJsx.user (state w) = None
  /\ AppJsx.instruments (state w) = []
  /\ alerts (effects w) = [Alert "Invalid login credentials"].
Proof.
  cbv zeta.
  destruct (refused_login Examples.failing Examples.refused) as [H _].
  specialize (H Examples.login_form eq_refl eq_refl eq_refl).
  split; [reflexivity|]. split; [reflexivity|]. split; [reflexivity|].
  exact H.
Defined.

End LoginFacts.

(** ** The bulk row read *)
Module FetchFacts.

(** C6, as the specification words it, fails: a bulk read that returns
    an error while the cache holds a row leaves that row in the cache. *)
Lemma failed_read_keeps_rows :
  instruments_select Examples.failing (uid Examples.alice)
  = Failure Examples.unreachable
  /\ AppJsx.instruments
       (state (run (AppJsx.fetchInstruments Examples.failing Examples.alice)
                   Examples.alice_home))
     = [Examples.guitar]
  /\ Part001.instruments
       (state (run (Part001.fetchInstruments Examples.failing)
                   Examples.alice_home_001))
     = [Examples.guitar]
  /\ [Examples.guitar] <> [].
Proof. repeat split. discriminate. Qed.

(** C6 (amended): a bulk row read that returns an error writes the error
    to the console and does nothing else: no message is shown to the user
    and every state cell, the row cache among them, keeps the value it had
    before the read (so the cache is empty afterwards when it was empty
    before); in [src/src/App.jsx] and in [part_001]. *)
Theorem failed_read_is_logged_only (sb : Client) (u : User) (e : JsError) :
  instruments_select sb (uid u) = Failure e ->
  (forall s,
     let w := run (AppJsx.fetchInstruments sb u) s in
     state w = s
     /\ effects w = [InstrumentsSelect (uid u);
                     ConsoleError ("Error fetching instruments: " +++ message e)]
     /\ alerts (effects w) = []
     /\ (AppJsx.instruments s = [] -> AppJsx.instruments (state w) = []))
  /\ (forall s,
        Part001.user s = Some u ->
        let w := run (Part001.fetchInstruments sb) s in
        state w = s
        /\ effects w = [InstrumentsSelect (uid u);
                        ConsoleError
                          ("Error fetching instruments: " +++ message e)]
        /\ alerts (effects w) = []
        /\ (Part001.instruments s = [] -> Part001.instruments (state w) = [])).
Proof.
  intros Hr. split.
  - intros s w. subst w. unfold AppJsx.fetchInstruments. js_run.
    js_answer Hr. simpl. auto.
  - intros s Hu w. subst w. unfold Part001.fetchInstruments. js_run.
    js_answer Hu. js_answer Hr. simpl. auto.
Qed.

Lemma failed_read_is_logged_only_witness :
  let w := run (AppJsx.fetchInstruments Examples.failing Examples.alice)
               AppJsx.initial in
  instruments_select Examples.failing (uid Examples.alice)
  = Failure Examples.unreachable
  /\ state w = AppJsx.initial
  /\ alerts (effects w) = []
  /\ AppJsx.instruments (state w) = [].
Proof.
  cbv zeta.
  destruct (failed_read_is_logged_only Examples.failing Examples.alice
              eq_refl) as [H _].
  destruct (H AppJsx.initial) as [Hs [_ [Ha He]]].
  split; [reflexivity|]. split; [exact Hs|]. split; [exact Ha|].
  apply He. reflexivity.
Defined.

End FetchFacts.

(** ** Adding a row *)
Module AddFacts.

(** C10: with an empty name field the add-row handler sends no insert
    request and leaves every state cell as it was; when the insert request
    succeeds the name field is emptied and nothing else changes; and
    whatever the backend answers, the handler leaves the row cache as it
    was; in [src/src/App.jsx] and in [part_001]. *)
Theorem add_row_frame (sb : Client) :
  (forall s,
     AppJsx.instrumentName s = "" ->
     run (AppJsx.handleAddInstrument sb) s = mkWorld s [])
  /\ (forall s u,
        truthy (AppJsx.instrumentName s) = true ->
        AppJsx.user s = Some u ->
        instruments_insert sb (AppJsx.instrumentName s) (uid u) = None ->
        run (AppJsx.handleAddInstrument sb) s
        = mkWorld
            (AppJsx.mkState (AppJsx.email s) (AppJsx.password s)
               (AppJsx.user s) "" (AppJsx.instruments s) (AppJsx.avatarUrl s)
               (AppJsx.uploading s) (AppJsx.loading s))
            [InstrumentsInsert (AppJsx.instrumentName s) (uid u)])
  /\ (forall s,
        AppJsx.instruments (state (run (AppJsx.handleAddInstrument sb) s))
        = AppJsx.instruments s)
  /\ (forall s,
        Part001.instrumentName s = "" ->
        run (Part001.handleAddInstrument sb) s = mkWorld s [])
  /\ (forall s u,
        truthy (Part001.instrumentName s) = true ->
        Part001.user s = Some u ->
        instruments_insert sb (Part001.instrumentName s) (uid u) = None ->
        run (Part001.handleAddInstrument sb) s
        = mkWorld
            (Part001.mkState (Part001.email s) (Part001.password s)
               (Part001.user s) "" (Part001.instruments s)
               (Part001.avatarUrl s) (Part001.uploading s))
            [InstrumentsInsert (Part001.instrumentName s) (uid u)])
  /\ (forall s,
        Part001.instruments (state (run (Part001.handleAddInstrument sb) s))
        = Part001.instruments s).
Proof.
  repeat apply conj.
  - intros s Hn. unfold AppJsx.handleAddInstrument. js_run. rewrite Hn.
    reflexivity.
  - intros s u Hn Hu Hr. unfold AppJsx.handleAddInstrument. js_run.
    rewrite Hn. js_answer Hu. js_answer Hr. simpl. rewrite ?Hu.
    reflexivity.
  - intros s. unfold AppJsx.handleAddInstrument. js_run.
    destruct (truthy (AppJsx.instrumentName s)); [|reflexivity].
    destruct (AppJsx.user s) as [u|]; js_run; [|reflexivity].
    destruct (instruments_insert sb (AppJsx.instrumentName s) (uid u));
      reflexivity.
  - intros s Hn. unfold Part001.handleAddInstrument. js_run. rewrite Hn.
    reflexivity.
  - intros s u Hn Hu Hr. unfold Part001.handleAddInstrument. js_run.
    rewrite Hn. js_answer Hu. js_answer Hr. simpl. rewrite ?Hu.
    reflexivity.
  - intros s. unfold Part001.handleAddInstrument. js_run.
    destruct (truthy (Part001.instrumentName s)); [|reflexivity].
    destruct (Part001.user s) as [u|]; js_run; [|reflexivity].
    destruct (instruments_insert sb (Part001.instrumentName s) (uid u));
      reflexivity.
Qed.

Lemma add_row_frame_witness :
  AppJsx.instrumentName Examples.alice_home = ""
  /\ run (AppJsx.handleAddInstrument Examples.healthy) Examples.alice_home
     = mkWorld Examples.alice_home []
  /\ (let s := AppJsx.mkState "" "" (Some Examples.alice) "oboe"
                 [Examples.guitar] None false false in
      truthy (AppJsx.instrumentName s) = true
      /\ instruments_insert Examples.healthy "oboe" "a1" = None
      /\ run (AppJsx.handleAddInstrument Examples.healthy) s
         = mkWorld (AppJsx.mkState "" "" (Some Examples.alice) ""
                      [Examples.guitar] None false false)
                   [InstrumentsInsert "oboe" "a1"]).
Proof.
  destruct (add_row_frame Examples.healthy) as [Hempty [Hok _]].
  split; [reflexivity|].
  split; [apply Hempty; reflexivity|].
  cbv zeta. split; [reflexivity|]. split; [reflexivity|].
  apply (Hok (AppJsx.mkState "" "" (Some Examples.alice) "oboe"
                [Examples.guitar] None false false) Examples.alice);
    reflexivity.
Defined.

End AddFacts.

(** ** Start-up *)
Module StartupFacts.
Import Lifecycle.

(** No handler bound to a control asks for the session. *)
Lemma handler_no_getSession (sb : Client) (ev : Event) (w : World AppJsx.State) :
  getSession_count (effects (snd (handler sb ev w)))
  = getSession_count (effects w).
Proof.
  destruct ev; unfold handler, AppJsx.handleLogin, AppJsx.handleSignUp,
    AppJsx.handleGithubLogin, AppJsx.handleLogout, AppJsx.handleAvatarUpload,
    AppJsx.handleAddInstrument; js_run; split_answers; count_done.
Qed.

(** Neither does the listener, nor the rest of [fetchUser]. *)
Lemma onAuthStateChange_no_getSession
  (sb : Client) (session : option Session) (w : World AppJsx.State) :
  getSession_count (effects (snd (AppJsx.onAuthStateChange sb session w)))
  = getSession_count (effects w).
Proof.
  unfold AppJsx.onAuthStateChange, AppJsx.fetchProfile,
    AppJsx.fetchInstruments; js_run; split_answers; count_done.
Qed.

Lemma step_getSession (sb : Client) (ev : Event) (a a' : App) :
  step sb ev a = Some a' ->
  getSession_count (effects (world a)) = (if mounted a then 1 else 0)%nat ->
  getSession_count (effects (world a')) = (if mounted a' then 1 else 0)%nat.
Proof.
  intros Hs Hc.
  assert (Hui : offers (state (world a)) ev = true ->
                a' = mkApp (after (handler sb ev) a) (mounted a)
                       (session_pending a) ->
                getSession_count (effects (world a'))
                = (if mounted a' then 1 else 0)%nat).
  { intros _ ->. simpl. unfold after. now rewrite handler_no_getSession. }
  destruct ev; simpl in Hs;
    try (destruct (offers (state (world a)) _) eqn:Ho; [|discriminate];
         injection Hs as <-; now apply Hui).
  - destruct (mounted a) eqn:Hm; [discriminate|]. injection Hs as <-.
    simpl. unfold after, AppJsx.mount. js_run.
    unfold getSession_count in *. rewrite !filter_app, !length_app, Hc.
    reflexivity.
  - destruct (session_pending a); [|discriminate]. injection Hs as <-.
    simpl. exact Hc.
  - destruct (mounted a) eqn:Hm; [|discriminate]. injection Hs as <-.
    simpl. unfold after. rewrite onAuthStateChange_no_getSession, Hc.
    reflexivity.
Qed.

(** [src/src/App.jsx] asks for the session once: when it mounts, and
    never again. *)
Lemma getSession_once (tr : list (Client * Event)) :
  forall a a',
    getSession_count (effects (world a)) = (if mounted a then 1 else 0)%nat ->
    exec tr a = Some a' ->
    getSession_count (effects (world a')) = (if mounted a' then 1 else 0)%nat.
Proof.
  induction tr as [|[sb ev] tr IH]; intros a a' Hc He; simpl in He.
  - now injection He as <-.
  - destruct (step sb ev a) as [a1|] eqn:Hs; [|discriminate].
    eapply IH; [|exact He]. eapply step_getSession; eauto.
Qed.

Lemma step_keeps_loading (sb : Client) (ev : Event) (a a' : App) :
  resolves ev = false ->
  AppJsx.loading (state (world a)) = true ->
  step sb ev a = Some a' ->
  AppJsx.loading (state (world a')) = true.
Proof.
  intros Hr Hl Hs.
  destruct ev; try discriminate; simpl in Hs;
    unfold offers, AppJsx.render in Hs; rewrite ?Hl in Hs; try discriminate.
  destruct (mounted a); [discriminate|]. injection Hs as <-. exact Hl.
Qed.

(** [src/src/App.jsx] shows the loading view from the first render until
    the initial [getSession] resolves or the provider notifies. *)
Lemma loading_until_resolved (tr : list (Client * Event)) :
  forall a a',
    AppJsx.loading (state (world a)) = true ->
    forallb (fun e => negb (resolves (snd e))) tr = true ->
    exec tr a = Some a' ->
    AppJsx.render (state (world a')) = LoadingView.
Proof.
  induction tr as [|[sb ev] tr IH]; intros a a' Hl Hn He; simpl in *.
  - injection He as <-. unfold AppJsx.render. now rewrite Hl.
  - apply andb_true_iff in Hn. destruct Hn as [Hev Hn].
    apply negb_true_iff in Hev.
    destruct (step sb ev a) as [a1|] eqn:Hs; [|discriminate].
    eapply (IH a1); eauto using step_keeps_loading.
Qed.

Lemma app_jsx_startup (tr : list (Client * Event)) (a : App) :
  exec tr start = Some a ->
  getSession_count (effects (world a)) = (if mounted a then 1 else 0)%nat
  /\ (forallb (fun e => negb (resolves (snd e))) tr = true ->
      AppJsx.render (state (world a)) = LoadingView).
Proof.
  intros He. split.
  - eapply getSession_once; [|exact He]. reflexivity.
  - intros Hn. eapply loading_until_resolved; [|exact Hn|exact He].
    reflexivity.
Qed.

(** C7 does not hold in [part_001]: it asks for the session once when it
    mounts, but it has no loading state, and both at the first render and
    after the mount effect, with the session request still unanswered, it
    shows the unauthenticated view. *)
Theorem part001_shows_login_before_session :
  Part001.render Part001.initial = LoginView
  /\ (let w := run Part001.mount Part001.initial in
      effects w = [AuthGetSession; AuthOnAuthStateChange]
      /\ Part001.render (state w) = LoginView)
  /\ AppJsx.render AppJsx.initial = LoadingView.
Proof. repeat split. Qed.

End StartupFacts.

(** ** Laws of the live-update handler *)
Module RealtimeLaws.
Import Realtime.

Lemma absent_not_in (i : Z) (c : list Row) :
  present i c = false -> ~ In i (map id c).
Proof.
  intros H Hin. apply in_map_iff in Hin. destruct Hin as [item [Hid Hin]].
  apply (proj1 (RealtimeFacts.present_false_iff i c) H item Hin Hid).
Qed.

Lemma present_in (i : Z) (c : list Row) :
  present i c = true -> In i (map id c).
Proof.
  unfold present. intros H. apply existsb_exists in H.
  destruct H as [item [Hin Hid]]. apply Z.eqb_eq in Hid. subst i.
  now apply in_map.
Qed.

(** Removing an identifier the cache lacks removes nothing. *)
Lemma remove_absent (i : Z) (c : list Row) :
  ~ In i (map id c) ->
  filter (fun item => negb (id item =? i)%Z) c = c.
Proof.
  induction c as [|r c IH]; simpl; intros H; [reflexivity|].
  destruct (Z.eqb_spec (id r) i) as [E|E]; simpl.
  - exfalso. apply H. now left.
  - f_equal. apply IH. intros Hin. apply H. now right.
Qed.

Lemma ids_after_remove (i : Z) (c : list Row) :
  NoDup (map id c) ->
  NoDup (map id (filter (fun item => negb (id item =? i)%Z) c)).
Proof.
  induction c as [|r c IH]; simpl; intros H; [constructor|].
  inversion H as [|x l Hx Hl]; subst.
  destruct (negb (id r =? i)%Z); simpl; [|now apply IH].
  constructor; [|now apply IH].
  intros Hin. apply Hx. apply in_map_iff in Hin.
  destruct Hin as [item [Hid Hin]]. apply filter_In in Hin.
  apply in_map_iff. exists item. tauto.
Qed.

Lemma step_keeps_ids_distinct (p : Payload) (c : list Row) :
  NoDup (map id c) ->
  (is_insert p = true -> present (payload_id p) c = false) ->
  NoDup (map id (postgres_changes p c)).
Proof.
  intros Hnd Hf. destruct p as [new | old new | old]; simpl.
  - rewrite map_app. simpl.
    apply NoDup_rev in Hnd. rewrite <- (rev_involutive (map id c ++ [id new])).
    apply NoDup_rev. rewrite rev_app_distr. simpl. constructor; [|exact Hnd].
    rewrite <- in_rev. apply absent_not_in. now apply Hf.
  - now rewrite RealtimeFacts.map_id_replace.
  - now apply ids_after_remove.
Qed.

(** The handler keeps the identifiers of the cache pairwise distinct, as
    long as no insert notification arrives for an identifier the cache
    holds. *)
Theorem deliver_keeps_ids_distinct (ps : list Payload) :
  forall c,
    NoDup (map id c) ->
    inserts_fresh c ps = true ->
    NoDup (map id (deliver c ps)).
Proof.
  unfold deliver.
  induction ps as [|p ps IH]; intros c Hnd Hf; simpl in *; [exact Hnd|].
  apply andb_true_iff in Hf. destruct Hf as [Hp Hps].
  apply IH; [|exact Hps]. apply step_keeps_ids_distinct; [exact Hnd|].
  intros Hi. destruct p; try discriminate. now apply negb_true_iff.
Qed.

Lemma deliver_keeps_ids_distinct_witness :
  let c := [Examples.guitar] in
  let ps := [INSERT Examples.piano; UPDATE Examples.guitar Examples.guitar';
             INSERT Examples.drums; DELETE Examples.piano] in
  NoDup (map id c)
  /\ inserts_fresh c ps = true
  /\ deliver c ps = [Examples.guitar'; Examples.drums]
  /\ NoDup (map id (deliver c ps)).
Proof.
  cbv zeta.
  assert (H1 : NoDup (map id [Examples.guitar])).
  { simpl. constructor; [intros [] | constructor]. }
  split; [exact H1|]. split; [reflexivity|]. split; [reflexivity|].
  apply (deliver_keeps_ids_distinct
           [INSERT Examples.piano; UPDATE Examples.guitar Examples.guitar';
            INSERT Examples.drums; DELETE Examples.piano]
           [Examples.guitar] H1).
  reflexivity.
Defined.

(** After a delete notification no cached row carries its identifier,
    every row with another identifier is still cached, a second delivery
    of the notification changes nothing, and, the identifiers being
    pairwise distinct, a delete that matches a row shortens the cache by
    exactly one. *)
Theorem delete_removes_identifier (c : list Row) (old : Row) :
  let c' := postgres_changes (DELETE old) c in
  present (id old) c' = false
  /\ (forall item, In item c -> id item <> id old -> In item c')
  /\ postgres_changes (DELETE old) c' = c'
  /\ (NoDup (map id c) -> present (id old) c = true ->
      S (length c') = length c).
Proof.
  cbv zeta. simpl.
  assert (Habs : present (id old)
                   (filter (fun item => negb (id item =? id old)%Z) c) = false).
  { apply RealtimeFacts.present_false_iff. intros item Hin.
    apply filter_In in Hin. destruct Hin as [_ Hid].
    apply negb_true_iff in Hid. now apply Z.eqb_neq. }
  split; [exact Habs|]. split; [|split].
  - intros item Hin Hid. apply filter_In. split; [exact Hin|].
    apply negb_true_iff. now apply Z.eqb_neq.
  - apply remove_absent. now apply absent_not_in.
  - intros Hnd Hp. clear Habs.
    induction c as [|r c IH]; simpl in *; [discriminate|].
    inversion Hnd as [|x l Hx Hl]; subst.
    destruct (Z.eqb_spec (id r) (id old)) as [E|E]; simpl in *.
    + rewrite remove_absent; [reflexivity|]. now rewrite <- E.
    + f_equal. apply IH; [exact Hl | exact Hp].
Qed.

Lemma delete_removes_identifier_witness :
  let c := [Examples.guitar; Examples.piano; Examples.drums] in
  NoDup (map id c)
  /\ present (id Examples.piano) c = true
  /\ S (length (postgres_changes (DELETE Examples.piano) c)) = length c
  /\ In Examples.drums (postgres_changes (DELETE Examples.piano) c).
Proof.
  cbv zeta.
  assert (Hnd : NoDup (map id [Examples.guitar; Examples.piano;
                               Examples.drums])).
  { simpl. repeat constructor; simpl; intuition discriminate. }
  destruct (delete_removes_identifier
              [Examples.guitar; Examples.piano; Examples.drums]
              Examples.piano) as [_ [Hkeep [_ Hlen]]].
  split; [exact Hnd|]. split; [reflexivity|].
  split; [apply Hlen; [exact Hnd | reflexivity]|].
  apply Hkeep; [simpl; tauto | simpl; lia].
Defined.

(** An insert notification followed by the delete notification for the
    same row gives back a cache that did not hold the identifier. *)
Theorem insert_then_delete (c : list Row) (r : Row) :
  present (id r) c = false ->
  deliver c [INSERT r; DELETE r] = c.
Proof.
  intros H. unfold deliver. simpl. rewrite filter_app. simpl.
  rewrite Z.eqb_refl. simpl. rewrite app_nil_r.
  apply remove_absent. now apply absent_not_in.
Qed.

Lemma insert_then_delete_witness :
  present (id Examples.drums) [Examples.guitar; Examples.piano] = false
  /\ deliver [Examples.guitar; Examples.piano]
             [INSERT Examples.drums; DELETE Examples.drums]
     = [Examples.guitar; Examples.piano].
Proof.
  split; [reflexivity|].
  apply (insert_then_delete [Examples.guitar; Examples.piano] Examples.drums).
  reflexivity.
Defined.

(** An update notification keeps the identifiers of the cache in their
    order, puts the new row at every position that held its identifier,
    never reads [payload.old], and changes nothing when delivered a second
    time. *)
Theorem update_replaces_in_place (c : list Row) (old new : Row) :
  let c' := postgres_changes (UPDATE old new) c in
  map id c' = map id c
  /\ (forall k item,
        nth_error c k = Some item -> id item = id new ->
        nth_error c' k = Some new)
  /\ (forall old', postgres_changes (UPDATE old' new) c = c')
  /\ postgres_changes (UPDATE old new) c' = c'.
Proof.
  cbv zeta. simpl. split; [apply RealtimeFacts.map_id_replace|].
  split; [|split; [reflexivity|]].
  - intros k item Hk Hid. rewrite nth_error_map, Hk. simpl.
    apply Z.eqb_eq in Hid. now rewrite Hid.
  - rewrite map_map. apply map_ext. intros item.
    destruct (Z.eqb_spec (id item) (id new)) as [E|E].
    + now rewrite Z.eqb_refl.
    + apply Z.eqb_neq in E. now rewrite E.
Qed.

Lemma update_replaces_in_place_witness :
  let c := [Examples.piano; Examples.guitar] in
  nth_error c 1 = Some Examples.guitar
  /\ id Examples.guitar = id Examples.guitar'
  /\ nth_error (postgres_changes (UPDATE Examples.guitar Examples.guitar') c) 1
     = Some Examples.guitar'.
Proof.
  cbv zeta.
  destruct (update_replaces_in_place [Examples.piano; Examples.guitar]
              Examples.guitar Examples.guitar') as [_ [H _]].
  split; [reflexivity|]. split; [reflexivity|].
  apply (H 1%nat Examples.guitar); reflexivity.
Defined.

Lemma remove_after_replace (i : Z) (new : Row) (c : list Row) :
  id new <> i ->
  filter (fun item => negb (id item =? i)%Z)
    (map (fun item => if (id item =? id new)%Z then new else item) c)
  = map (fun item => if (id item =? id new)%Z then new else item)
      (filter (fun item => negb (id item =? i)%Z) c).
Proof.
  intros Hne. induction c as [|r c IH]; simpl; [reflexivity|].
  destruct (id r =? id new)%Z eqn:E.
  - apply Z.eqb_eq in E.
    assert (H1 : (id new =? i)%Z = false) by now apply Z.eqb_neq.
    assert (H2 : (id r =? i)%Z = false) by (apply Z.eqb_neq; congruence).
    assert (H3 : (id r =? id new)%Z = true) by now apply Z.eqb_eq.
    rewrite H1, H2. simpl. now rewrite H3, IH.
  - destruct (id r =? i)%Z eqn:E'; simpl; [exact IH|].
    now rewrite E, IH.
Qed.

(** Two notifications about different identifiers can be delivered in
    either order, unless both are inserts (whose order is the order of the
    rows in the cache). *)
Theorem notifications_commute (p q : Payload) (c : list Row) :
  payload_id p <> payload_id q ->
  is_insert p && is_insert q = false ->
  deliver c [p; q] = deliver c [q; p].
Proof.
  unfold deliver.
  destruct p as [n1 | o1 n1 | o1], q as [n2 | o2 n2 | o2]; simpl;
    intros Hne Hi; try discriminate.
  - rewrite map_app. simpl. apply Z.eqb_neq in Hne. now rewrite Hne.
  - rewrite filter_app. simpl. apply Z.eqb_neq in Hne. now rewrite Hne.
  - rewrite map_app. simpl.
    assert (H : (id n2 =? id n1)%Z = false) by (apply Z.eqb_neq; congruence).
    now rewrite H.
  - rewrite !map_map. apply map_ext. intros item.
    assert (H12 : (id n1 =? id n2)%Z = false) by now apply Z.eqb_neq.
    assert (H21 : (id n2 =? id n1)%Z = false)
      by (apply Z.eqb_neq; congruence).
    destruct (id item =? id n1)%Z eqn:E1, (id item =? id n2)%Z eqn:E2;
      rewrite ?H12, ?H21, ?E1, ?E2; try reflexivity.
    apply Z.eqb_eq in E1, E2. congruence.
  - now apply remove_after_replace.
  - rewrite filter_app. simpl.
    assert (H : (id n2 =? id o1)%Z = false) by (apply Z.eqb_neq; congruence).
    now rewrite H.
  - symmetry. apply remove_after_replace. congruence.
  - induction c as [|r c IH]; simpl; [reflexivity|].
    destruct (id r =? id o1)%Z eqn:E1, (id r =? id o2)%Z eqn:E2; simpl;
      rewrite ?E1, ?E2, ?IH; reflexivity.
Qed.

Lemma notifications_commute_witness :
  let p := UPDATE Examples.guitar Examples.guitar' in
  let q := DELETE Examples.piano in
  let c := [Examples.guitar; Examples.piano; Examples.drums] in
  payload_id p <> payload_id q
  /\ is_insert p && is_insert q = false
  /\ deliver c [p; q] = [Examples.guitar'; Examples.drums]
  /\ deliver c [p; q] = deliver c [q; p].
Proof.
  cbv zeta.
  assert (Hne : payload_id (UPDATE Examples.guitar Examples.guitar')
                <> payload_id (DELETE Examples.piano)) by (simpl; lia).
  split; [exact Hne|]. split; [reflexivity|]. split; [reflexivity|].
  apply (notifications_commute
           (UPDATE Examples.guitar Examples.guitar')
           (DELETE Examples.piano)
           [Examples.guitar; Examples.piano; Examples.drums] Hne).
  reflexivity.
Defined.

End RealtimeLaws.

(** ** More on the upload flow *)
Module UploadLaws.

(** When the storage write and the profile write both succeed, the public
    URL of the written path is published, the uploading flag is false and
    nothing is shown to the user; in [src/src/App.jsx], in [part_001] and
    in the third version of [part_000]. *)
Theorem upload_succeeds
  (sb : Client) (file : File) (rest : list File) (u : User) :
  let path := uid u +++ "." +++ split_dot_pop (file_name file) in
  let path' := "avatars/" +++ uid u +++ "." +++ split_dot_pop (file_name file) in
  (forall s,
     AppJsx.user s = Some u ->
     storage_upload sb path file = None ->
     profiles_upsert sb (uid u) path = None ->
     let w := run (AppJsx.handleAvatarUpload sb (file :: rest)) s in
     AppJsx.avatarUrl (state w) = Some (storage_getPublicUrl sb path)
     /\ AppJsx.uploading (state w) = false
     /\ effects w = [StorageUpload path file; ProfilesUpsert (uid u) path;
                     StorageGetPublicUrl path])
  /\ (forall s,
        Part001.user s = Some u ->
        storage_upload sb path file = None ->
        profiles_upsert sb (uid u) path = None ->
        let w := run (Part001.handleAvatarUpload sb (file :: rest)) s in
        Part001.avatarUrl (state w) = Some (storage_getPublicUrl sb path)
        /\ Part001.uploading (state w) = false
        /\ effects w = [StorageUpload path file; ProfilesUpsert (uid u) path;
                        StorageGetPublicUrl path])
  /\ (forall s,
        Part000C.user s = Some u ->
        storage_upload sb path' file = None ->
        profiles_update sb (uid u) path' = None ->
        let w := run (Part000C.handleAvatarUpload sb (file :: rest)) s in
        Part000C.avatarUrl (state w) = Some (storage_getPublicUrl sb path')
        /\ Part000C.uploading (state w) = false
        /\ effects w = [StorageUpload path' file;
                        ProfilesUpdate (uid u) path';
                        StorageGetPublicUrl path']).
Proof.
  intros path path'. repeat apply conj; intros s Hu Hup Hpr w; subst w.
  - unfold AppJsx.handleAvatarUpload. js_run. js_answer Hu.
    fold path. js_answer Hup. js_answer Hpr. repeat split.
  - unfold Part001.handleAvatarUpload. js_run. js_answer Hu.
    fold path. js_answer Hup. js_answer Hpr. repeat split.
  - unfold Part000C.handleAvatarUpload. js_run. js_answer Hu.
    fold path'. js_answer Hup. js_answer Hpr. repeat split.
Qed.

Lemma upload_succeeds_witness :
  let w := run (AppJsx.handleAvatarUpload Examples.healthy [Examples.photo])
               Examples.alice_home in
  AppJsx.user Examples.alice_home = Some Examples.alice
  /\ storage_upload Examples.healthy "a1.png" Examples.photo = None
  /\ profiles_upsert Examples.healthy "a1" "a1.png" = None
  /\ AppJsx.avatarUrl (state w) = Some Examples.alice_avatar
  /\ AppJsx.uploading (state w) = false.
Proof.
  cbv zeta.
  destruct (upload_succeeds Examples.healthy Examples.photo []
              Examples.alice) as [H _].
  specialize (H Examples.alice_home eq_refl eq_refl eq_refl).
  cbv zeta in H. destruct H as [Ha [Hu _]].
  split; [reflexivity|]. split; [reflexivity|]. split; [reflexivity|].
  split; [exact Ha | exact Hu].
Defined.

(** When the storage write fails, the profile is not written and no URL
    is resolved: the run is the storage request and one message to the
    user; the published avatar URL is the one from before and the
    uploading flag is false; in the three versions. *)
Theorem upload_storage_write_fails
  (sb : Client) (file : File) (rest : list File) (u : User) (e : JsError) :
  let path := uid u +++ "." +++ split_dot_pop (file_name file) in
  let path' := "avatars/" +++ uid u +++ "." +++ split_dot_pop (file_name file) in
  (forall s,
     AppJsx.user s = Some u ->
     storage_upload sb path file = Some e ->
     let w := run (AppJsx.handleAvatarUpload sb (file :: rest)) s in
     AppJsx.avatarUrl (state w) = AppJsx.avatarUrl s
     /\ AppJsx.uploading (state w) = false
     /\ effects w = [StorageUpload path file;
                     Alert ("Avatar upload failed: " +++ message e)])
  /\ (forall s,
        Part001.user s = Some u ->
        storage_upload sb path file = Some e ->
        let w := run (Part001.handleAvatarUpload sb (file :: rest)) s in
        Part001.avatarUrl (state w) = Part001.avatarUrl s
        /\ Part001.uploading (state w) = false
        /\ effects w = [StorageUpload path file;
                        Alert ("Avatar upload failed: " +++ message e)])
  /\ (forall s,
        Part000C.user s = Some u ->
        storage_upload sb path' file = Some e ->
        let w := run (Part000C.handleAvatarUpload sb (file :: rest)) s in
        Part000C.avatarUrl (state w) = Part000C.avatarUrl s
        /\ Part000C.uploading (state w) = false
        /\ effects w = [StorageUpload path' file;
                        Alert ("Avatar upload failed: " +++ message e)]).
Proof.
  intros path path'. repeat apply conj; intros s Hu Hup w; subst w.
  - unfold AppJsx.handleAvatarUpload. js_run. js_answer Hu.
    fold path. js_answer Hup. repeat split.
  - unfold Part001.handleAvatarUpload. js_run. js_answer Hu.
    fold path. js_answer Hup. repeat split.
  - unfold Part000C.handleAvatarUpload. js_run. js_answer Hu.
    fold path'. js_answer Hup. repeat split.
Qed.

Lemma upload_storage_write_fails_witness :
  let w := run (AppJsx.handleAvatarUpload Examples.storage_down
                  [Examples.photo]) Examples.alice_home in
  AppJsx.user Examples.alice_home = Some Examples.alice
  /\ storage_upload Examples.storage_down "a1.png" Examples.photo
     = Some Examples.unreachable
  /\ AppJsx.avatarUrl (state w) = Some Examples.alice_avatar
  /\ effects w = [StorageUpload "a1.png" Examples.photo;
                  Alert "Avatar upload failed: Failed to fetch"].
Proof.
  cbv zeta.
  destruct (upload_storage_write_fails Examples.storage_down Examples.photo
              [] Examples.alice Examples.unreachable) as [H _].
  specialize (H Examples.alice_home eq_refl eq_refl).
  cbv zeta in H. destruct H as [Ha [_ He]].
  split; [reflexivity|]. split; [reflexivity|].
  split; [exact Ha | exact He].
Defined.

(** Whatever the files and the backend's answers, the upload handler of
    [src/src/App.jsx] ends normally (every error is caught), leaves the
    uploading flag false, writes no cell other than the avatar URL and the
    flag, publishes either the URL from before or a public URL of the
    storage, and shows at most one message. *)
Theorem upload_frame (sb : Client) (files : list File) (s : AppJsx.State) :
  let w := run (AppJsx.handleAvatarUpload sb files) s in
  completion (AppJsx.handleAvatarUpload sb files) s = Normal tt
  /\ (exists a,
        state w = AppJsx.mkState (AppJsx.email s) (AppJsx.password s)
                    (AppJsx.user s) (AppJsx.instrumentName s)
                    (AppJsx.instruments s) a false (AppJsx.loading s)
        /\ (a = AppJsx.avatarUrl s
            \/ exists path, a = Some (storage_getPublicUrl sb path)))
  /\ (length (alerts (effects w)) <= 1)%nat.
Proof.
  cbv zeta. unfold completion, AppJsx.handleAvatarUpload. js_run.
  split_answers; simpl; (split; [reflexivity|]);
    (split; [eexists; split; [reflexivity|]; eauto | lia]).
Qed.

(** The same for [part_001] and for the third version of [part_000]. *)
Theorem upload_frame_other_versions (sb : Client) (files : list File) :
  (forall s,
     let w := run (Part001.handleAvatarUpload sb files) s in
     completion (Part001.handleAvatarUpload sb files) s = Normal tt
     /\ (exists a,
           state w = Part001.mkState (Part001.email s) (Part001.password s)
                       (Part001.user s) (Part001.instrumentName s)
                       (Part001.instruments s) a false
           /\ (a = Part001.avatarUrl s
               \/ exists path, a = Some (storage_getPublicUrl sb path)))
     /\ (length (alerts (effects w)) <= 1)%nat)
  /\ (forall s,
        let w := run (Part000C.handleAvatarUpload sb files) s in
        completion (Part000C.handleAvatarUpload sb files) s = Normal tt
        /\ (exists a,
              state w = Part000C.mkState (Part000C.email s)
                          (Part000C.password s) (Part000C.user s)
                          (Part000C.instrumentName s) (Part000C.instruments s)
                          a false (Part000C.loading s)
              /\ (a = Part000C.avatarUrl s
                  \/ exists path, a = Some (storage_getPublicUrl sb path)))
        /\ (length (alerts (effects w)) <= 1)%nat).
Proof.
  split; intros s; cbv zeta;
    unfold completion, Part001.handleAvatarUpload,
      Part000C.handleAvatarUpload; js_run;
    split_answers; simpl; (split; [reflexivity|]);
    (split; [eexists; split; [reflexivity|]; eauto | lia]).
Qed.

(** With a file selected while the user cell is empty, reading [user.id]
    throws inside the [try]: nothing is sent to the backend, the user is
    shown the [TypeError], and only the uploading flag is written; in the
    three versions. *)
Theorem upload_without_user (sb : Client) (file : File) (rest : list File) :
  (forall s,
     AppJsx.user s = None ->
     run (AppJsx.handleAvatarUpload sb (file :: rest)) s
     = mkWorld
         (AppJsx.mkState (AppJsx.email s) (AppJsx.password s) None
            (AppJsx.instrumentName s) (AppJsx.instruments s)
            (AppJsx.avatarUrl s) false (AppJsx.loading s))
         [Alert ("Avatar upload failed: " +++ message TypeError_null_id)])
  /\ (forall s,
        Part001.user s = None ->
        run (Part001.handleAvatarUpload sb (file :: rest)) s
        = mkWorld
            (Part001.mkState (Part001.email s) (Part001.password s) None
               (Part001.instrumentName s) (Part001.instruments s)
               (Part001.avatarUrl s) false)
            [Alert ("Avatar upload failed: " +++ message TypeError_null_id)])
  /\ (forall s,
        Part000C.user s = None ->
        run (Part000C.handleAvatarUpload sb (file :: rest)) s
        = mkWorld
            (Part000C.mkState (Part000C.email s) (Part000C.password s) None
               (Part000C.instrumentName s) (Part000C.instruments s)
               (Part000C.avatarUrl s) false (Part000C.loading s))
            [Alert ("Avatar upload failed: " +++ message TypeError_null_id)]).
Proof.
  repeat apply conj; intros s Hu.
  - unfold AppJsx.handleAvatarUpload. js_run. js_answer Hu. reflexivity.
  - unfold Part001.handleAvatarUpload. js_run. js_answer Hu. reflexivity.
  - unfold Part000C.handleAvatarUpload. js_run. js_answer Hu. reflexivity.
Qed.

Lemma upload_without_user_witness :
  AppJsx.user Examples.no_user_typed = None
  /\ effects (run (AppJsx.handleAvatarUpload Examples.healthy
                     [Examples.photo]) Examples.no_user_typed)
     = [Alert "Avatar upload failed: Cannot read properties of null (reading 'id')"].
Proof.
  destruct (upload_without_user Examples.healthy Examples.photo [])
    as [H _].
  split; [reflexivity|].
  rewrite (H Examples.no_user_typed eq_refl). reflexivity.
Defined.

Lemma has_dot_after_dot (base rest : string) :
  has_dot (base +++ "." +++ rest) = true.
Proof.
  induction base as [|c base IH]; simpl; [reflexivity|].
  destruct (Ascii.eqb c "."); [reflexivity | exact IH].
Qed.

Lemma split_dot_pop_extension (base ext : string) :
  has_dot ext = false -> split_dot_pop (base +++ "." +++ ext) = ext.
Proof.
  intros He. induction base as [|c base IH].
  - simpl. now rewrite He.
  - change (String c base +++ "." +++ ext)
      with (String c (base +++ "." +++ ext)).
    cbn [split_dot_pop]. now rewrite has_dot_after_dot.
Qed.

Lemma split_dot_pop_no_extension (name : string) :
  has_dot name = false -> split_dot_pop name = name.
Proof.
  destruct name as [|c name]; simpl; [reflexivity|].
  destruct (Ascii.eqb c "."); [discriminate|]. intros H. now rewrite H.
Qed.

(** The object is written at a path made of the user's identifier and the
    text after the last dot of the file name (the whole name when it has no
    dot), so every file of one user with one extension goes to one path;
    the third version of [part_000] puts that path under [avatars/]. *)
Theorem upload_path
  (sb : Client) (u : User) (base ext name : string) (rest : list File) :
  has_dot ext = false ->
  has_dot name = false ->
  (forall s, AppJsx.user s = Some u ->
     hd_error (effects (run (AppJsx.handleAvatarUpload sb
                               (mkFile (base +++ "." +++ ext) :: rest)) s))
     = Some (StorageUpload (uid u +++ "." +++ ext)
                           (mkFile (base +++ "." +++ ext)))
     /\ hd_error (effects (run (AppJsx.handleAvatarUpload sb
                                  (mkFile name :: rest)) s))
        = Some (StorageUpload (uid u +++ "." +++ name) (mkFile name)))
  /\ (forall s, Part001.user s = Some u ->
        hd_error (effects (run (Part001.handleAvatarUpload sb
                                  (mkFile (base +++ "." +++ ext) :: rest)) s))
        = Some (StorageUpload (uid u +++ "." +++ ext)
                              (mkFile (base +++ "." +++ ext))))
  /\ (forall s, Part000C.user s = Some u ->
        hd_error (effects (run (Part000C.handleAvatarUpload sb
                                  (mkFile (base +++ "." +++ ext) :: rest)) s))
        = Some (StorageUpload ("avatars/" +++ uid u +++ "." +++ ext)
                              (mkFile (base +++ "." +++ ext)))).
Proof.
  intros He Hn. repeat apply conj; intros s Hu; [split|..].
  - unfold AppJsx.handleAvatarUpload. js_run. js_answer Hu.
    cbn [file_name]. rewrite (split_dot_pop_extension base ext He).
    split_answers; reflexivity.
  - unfold AppJsx.handleAvatarUpload. js_run. js_answer Hu.
    cbn [file_name]. rewrite (split_dot_pop_no_extension name Hn).
    split_answers; reflexivity.
  - unfold Part001.handleAvatarUpload. js_run. js_answer Hu.
    cbn [file_name]. rewrite (split_dot_pop_extension base ext He).
    split_answers; reflexivity.
  - unfold Part000C.handleAvatarUpload. js_run. js_answer Hu.
    cbn [file_name]. rewrite (split_dot_pop_extension base ext He).
    split_answers; reflexivity.
Qed.

Lemma upload_path_witness :
  has_dot "png" = false
  /\ has_dot "portrait" = false
  /\ AppJsx.user Examples.alice_home = Some Examples.alice
  /\ hd_error (effects (run (AppJsx.handleAvatarUpload Examples.healthy
                               [mkFile "me.holiday.png"])
                            Examples.alice_home))
     = Some (StorageUpload "a1.png" (mkFile "me.holiday.png"))
  /\ hd_error (effects (run (AppJsx.handleAvatarUpload Examples.healthy
                               [mkFile "portrait"])
                            Examples.alice_home))
     = Some (StorageUpload "a1.portrait" (mkFile "portrait")).
Proof.
  destruct (upload_path Examples.healthy Examples.alice "me.holiday" "png"
              "portrait" [] eq_refl eq_refl) as [H _].
  destruct (H Examples.alice_home eq_refl) as [H1 H2].
  split; [reflexivity|]. split; [reflexivity|]. split; [reflexivity|].
  split; [exact H1 | exact H2].
Defined.

End UploadLaws.

(** ** Signing in and signing up *)
Module AuthLaws.

(** [handleLogin] sends one sign-in request with the typed e-mail and
    password and shows the provider's message exactly when the sign-in is
    refused.  It never writes the user, the cache or the avatar: in
    [src/src/App.jsx] and in the third version of [part_000] it leaves the
    state as it was but for [loading], set to false; in [part_001] it
    leaves the state as it was and, on success, navigates away. *)
Theorem handleLogin_runs (sb : Client) :
  (forall s,
     run (AppJsx.handleLogin sb) s
     = mkWorld
         (AppJsx.mkState (AppJsx.email s) (AppJsx.password s) (AppJsx.user s)
            (AppJsx.instrumentName s) (AppJsx.instruments s)
            (AppJsx.avatarUrl s) (AppJsx.uploading s) false)
         (AuthSignInWithPassword (AppJsx.email s) (AppJsx.password s)
          :: match auth_signInWithPassword sb (AppJsx.email s)
                     (AppJsx.password s) with
             | Some e => [Alert (message e)]
             | None => []
             end))
  /\ (forall s,
        run (Part001.handleLogin sb) s
        = mkWorld s
            (AuthSignInWithPassword (Part001.email s) (Part001.password s)
             :: match auth_signInWithPassword sb (Part001.email s)
                        (Part001.password s) with
                | Some e => [Alert ("Login failed: " +++ message e)]
                | None =>
                    [Navigate "https://stingray-app-5y3zr.ondigitalocean.app/"]
                end))
  /\ (forall s,
        run (Part000C.handleLogin sb) s
        = mkWorld
            (Part000C.mkState (Part000C.email s) (Part000C.password s)
               (Part000C.user s) (Part000C.instrumentName s)
               (Part000C.instruments s) (Part000C.avatarUrl s)
               (Part000C.uploading s) false)
            (AuthSignInWithPassword (Part000C.email s) (Part000C.password s)
             :: match auth_signInWithPassword sb (Part000C.email s)
                        (Part000C.password s) with
                | Some e => [Alert (message e)]
                | None => [ConsoleLog "Login response:"]
                end)).
Proof.
  repeat apply conj; intros s;
    unfold AppJsx.handleLogin, Part001.handleLogin, Part000C.handleLogin;
    js_run; split_answers; reflexivity.
Qed.

(** [handleSignUp] sends one sign-up request and shows exactly one
    message: the invitation to confirm by e-mail when the provider accepts,
    the provider's message when it refuses.  It never writes the user: the
    state is left as it was, but for [loading], set to false where the
    version has it. *)
Theorem handleSignUp_runs (sb : Client) :
  (forall s,
     run (AppJsx.handleSignUp sb) s
     = mkWorld
         (AppJsx.mkState (AppJsx.email s) (AppJsx.password s) (AppJsx.user s)
            (AppJsx.instrumentName s) (AppJsx.instruments s)
            (AppJsx.avatarUrl s) (AppJsx.uploading s) false)
         [AuthSignUp (AppJsx.email s) (AppJsx.password s);
          Alert match auth_signUp sb (AppJsx.email s) (AppJsx.password s) with
                | Some e => message e
                | None => "Check your email for confirmation!"
                end])
  /\ (forall s,
        run (Part001.handleSignUp sb) s
        = mkWorld s
            [AuthSignUp (Part001.email s) (Part001.password s);
             Alert match auth_signUp sb (Part001.email s)
                           (Part001.password s) with
                   | Some e => "Sign-up failed: " +++ message e
                   | None => "Check your email for confirmation!"
                   end])
  /\ (forall s,
        run (Part000C.handleSignUp sb) s
        = mkWorld
            (Part000C.mkState (Part000C.email s) (Part000C.password s)
               (Part000C.user s) (Part000C.instrumentName s)
               (Part000C.instruments s) (Part000C.avatarUrl s)
               (Part000C.uploading s) false)
            [AuthSignUp (Part000C.email s) (Part000C.password s);
             Alert match auth_signUp sb (Part000C.email s)
                           (Part000C.password s) with
                   | Some e => message e
                   | None => "Check your email for confirmation!"
                   end]).
Proof.
  repeat apply conj; intros s;
    unfold AppJsx.handleSignUp, Part001.handleSignUp, Part000C.handleSignUp;
    js_run; split_answers; reflexivity.
Qed.

End AuthLaws.

(** ** More on adding a row *)
Module AddLaws.

(** When the insert is refused, the user is shown the backend's message
    and every cell, the typed name among them, keeps its value; when the
    user cell is empty and a name is typed, reading [user.id] throws a
    [TypeError] that nobody catches, before any request is sent, and every
    cell keeps its value; in the three versions. *)
Theorem add_row_errors (sb : Client) :
  (forall s u e,
     truthy (AppJsx.instrumentName s) = true ->
     AppJsx.user s = Some u ->
     instruments_insert sb (AppJsx.instrumentName s) (uid u) = Some e ->
     run (AppJsx.handleAddInstrument sb) s
     = mkWorld s [InstrumentsInsert (AppJsx.instrumentName s) (uid u);
                  Alert ("Error adding instrument: " +++ message e)])
  /\ (forall s,
        truthy (AppJsx.instrumentName s) = true ->
        AppJsx.user s = None ->
        run (AppJsx.handleAddInstrument sb) s = mkWorld s []
        /\ completion (AppJsx.handleAddInstrument sb) s
           = Thrown TypeError_null_id)
  /\ (forall s u e,
        truthy (Part001.instrumentName s) = true ->
        Part001.user s = Some u ->
        instruments_insert sb (Part001.instrumentName s) (uid u) = Some e ->
        run (Part001.handleAddInstrument sb) s
        = mkWorld s [InstrumentsInsert (Part001.instrumentName s) (uid u);
                     Alert ("Error adding instrument: " +++ message e)])
  /\ (forall s,
        truthy (Part001.instrumentName s) = true ->
        Part001.user s = None ->
        run (Part001.handleAddInstrument sb) s = mkWorld s []
        /\ completion (Part001.handleAddInstrument sb) s
           = Thrown TypeError_null_id)
  /\ (forall s u e,
        truthy (Part000C.instrumentName s) = true ->
        Part000C.user s = Some u ->
        instruments_insert sb (Part000C.instrumentName s) (uid u) = Some e ->
        run (Part000C.handleAddInstrument sb) s
        = mkWorld s [InstrumentsInsert (Part000C.instrumentName s) (uid u);
                     Alert ("Error adding instrument: " +++ message e)])
  /\ (forall s,
        truthy (Part000C.instrumentName s) = true ->
        Part000C.user s = None ->
        run (Part000C.handleAddInstrument sb) s = mkWorld s []
        /\ completion (Part000C.handleAddInstrument sb) s
           = Thrown TypeError_null_id).
Proof.
  repeat apply conj.
  - intros s u e Hn Hu Hr. unfold AppJsx.handleAddInstrument. js_run.
    rewrite Hn. js_answer Hu. js_answer Hr. reflexivity.
  - intros s Hn Hu. unfold completion, AppJsx.handleAddInstrument. js_run.
    rewrite Hn. js_answer Hu. split; reflexivity.
  - intros s u e Hn Hu Hr. unfold Part001.handleAddInstrument. js_run.
    rewrite Hn. js_answer Hu. js_answer Hr. reflexivity.
  - intros s Hn Hu. unfold completion, Part001.handleAddInstrument. js_run.
    rewrite Hn. js_answer Hu. split; reflexivity.
  - intros s u e Hn Hu Hr. unfold Part000C.handleAddInstrument. js_run.
    rewrite Hn. js_answer Hu. js_answer Hr. reflexivity.
  - intros s Hn Hu. unfold completion, Part000C.handleAddInstrument. js_run.
    rewrite Hn. js_answer Hu. split; reflexivity.
Qed.

Lemma add_row_errors_witness :
  (truthy (AppJsx.instrumentName Examples.alice_typed) = true
   /\ AppJsx.user Examples.alice_typed = Some Examples.alice
   /\ instruments_insert Examples.storage_down "oboe" "a1"
      = Some Examples.denied
   /\ run (AppJsx.handleAddInstrument Examples.storage_down)
          Examples.alice_typed
      = mkWorld Examples.alice_typed
          [InstrumentsInsert "oboe" "a1";
           Alert "Error adding instrument: new row violates row-level security policy"])
  /\ (truthy (AppJsx.instrumentName Examples.no_user_typed) = true
      /\ AppJsx.user Examples.no_user_typed = None
      /\ completion (AppJsx.handleAddInstrument Examples.healthy)
           Examples.no_user_typed
         = Thrown TypeError_null_id).
Proof.
  destruct (add_row_errors Examples.storage_down) as [Hrefused _].
  destruct (add_row_errors Examples.healthy) as [_ [Hnull _]].
  split.
  - split; [reflexivity|]. split; [reflexivity|]. split; [reflexivity|].
    apply (Hrefused Examples.alice_typed Examples.alice Examples.denied);
      reflexivity.
  - split; [reflexivity|]. split; [reflexivity|].
    apply (Hnull Examples.no_user_typed); reflexivity.
Defined.

End AddLaws.

(** ** Reading the rows and the profile *)
Module ReadLaws.

(** A bulk read that succeeds puts exactly the rows it returned in the
    cache, whatever the cache held, asks only for the rows owned by the
    user, and logs nothing; in the three versions. *)
Theorem bulk_read_replaces_cache (sb : Client) (u : User) (data : list Row) :
  instruments_select sb (uid u) = Success data ->
  (forall s,
     run (AppJsx.fetchInstruments sb u) s
     = mkWorld
         (AppJsx.mkState (AppJsx.email s) (AppJsx.password s) (AppJsx.user s)
            (AppJsx.instrumentName s) data (AppJsx.avatarUrl s)
            (AppJsx.uploading s) (AppJsx.loading s))
         [InstrumentsSelect (uid u)])
  /\ (forall s,
        Part001.user s = Some u ->
        run (Part001.fetchInstruments sb) s
        = mkWorld
            (Part001.mkState (Part001.email s) (Part001.password s) (Some u)
               (Part001.instrumentName s) data (Part001.avatarUrl s)
               (Part001.uploading s))
            [InstrumentsSelect (uid u)])
  /\ (forall s,
        Part000C.user s = Some u ->
        run (Part000C.fetchInstruments sb) s
        = mkWorld
            (Part000C.mkState (Part000C.email s) (Part000C.password s)
               (Some u) (Part000C.instrumentName s) data
               (Part000C.avatarUrl s) (Part000C.uploading s)
               (Part000C.loading s))
            [InstrumentsSelect (uid u)]).
Proof.
  intros Hr. repeat apply conj.
  - intros s. unfold AppJsx.fetchInstruments. js_run. js_answer Hr.
    reflexivity.
  - intros s Hu. unfold Part001.fetchInstruments. js_run. js_answer Hu.
    js_answer Hr. simpl. rewrite ?Hu. reflexivity.
  - intros s Hu. unfold Part000C.fetchInstruments. js_run. js_answer Hu.
    js_answer Hr. simpl. rewrite ?Hu. reflexivity.
Qed.

Lemma bulk_read_replaces_cache_witness :
  instruments_select Examples.healthy (uid Examples.alice)
  = Success [Examples.piano]
  /\ AppJsx.instruments
       (state (run (AppJsx.fetchInstruments Examples.healthy Examples.alice)
                   Examples.alice_home))
     = [Examples.piano].
Proof.
  destruct (bulk_read_replaces_cache Examples.healthy Examples.alice
              eq_refl) as [H _].
  split; [reflexivity|]. rewrite (H Examples.alice_home). reflexivity.
Defined.

(** What the three avatar resolvers publish for a signed-in user.  The
    third version of [part_000] publishes the public URL of the stored
    path, and "no avatar" when there is none or the read failed;
    [src/src/App.jsx] does the same for a read without error; [part_001]
    publishes the public URL of a stored path and otherwise leaves the
    published URL as it was.  None of them shows a message. *)
Theorem resolvers_publish (sb : Client) (u : User) :
  let answer := profiles_select_single sb (uid u) in
  let url := option_map (storage_getPublicUrl sb) (stored_path answer) in
  (forall s,
     Part000C.user s = Some u ->
     let w := run (Part000C.fetchAvatar sb) s in
     Part000C.avatarUrl (state w) = url /\ alerts (effects w) = [])
  /\ (forall s data,
        answer = Success data ->
        let w := run (AppJsx.fetchProfile sb u) s in
        AppJsx.avatarUrl (state w) = url /\ alerts (effects w) = [])
  /\ (forall s,
        Part001.user s = Some u ->
        let w := run (Part001.fetchProfile sb) s in
        Part001.avatarUrl (state w)
        = match url with Some a => Some a | None => Part001.avatarUrl s end
        /\ alerts (effects w) = []).
Proof.
  cbv zeta. repeat apply conj.
  - intros s Hu. unfold Part000C.fetchAvatar. js_run. js_answer Hu.
    destruct (profiles_select_single sb (uid u)) as [data|e]; js_run;
      [|split; reflexivity].
    simpl. destruct (avatar_url data) as [path|]; [|split; reflexivity].
    destruct (truthy path); split; reflexivity.
  - intros s data Hr. unfold AppJsx.fetchProfile. js_run. js_answer Hr.
    simpl. destruct (avatar_url data) as [path|]; [|split; reflexivity].
    destruct (truthy path); split; reflexivity.
  - intros s Hu. unfold Part001.fetchProfile. js_run. js_answer Hu.
    destruct (profiles_select_single sb (uid u)) as [data|e]; js_run;
      [|split; reflexivity].
    simpl. destruct (avatar_url data) as [path|]; [|split; reflexivity].
    destruct (truthy path); split; reflexivity.
Qed.

Lemma resolvers_publish_witness :
  Part000C.user Examples.alice_home_000C = Some Examples.alice
  /\ profiles_select_single Examples.storage_down (uid Examples.alice)
     = Success (mkProfile (Some "a1.png"))
  /\ Part000C.avatarUrl
       (state (run (Part000C.fetchAvatar Examples.storage_down)
                   Examples.alice_home_000C))
     = Some Examples.alice_avatar
  /\ AppJsx.avatarUrl
       (state (run (AppJsx.fetchProfile Examples.storage_down Examples.alice)
                   AppJsx.initial))
     = Some Examples.alice_avatar.
Proof.
  destruct (resolvers_publish Examples.storage_down Examples.alice)
    as [H000 [Happ _]].
  split; [reflexivity|]. split; [reflexivity|]. split.
  - apply (H000 Examples.alice_home_000C eq_refl).
  - apply (Happ AppJsx.initial (mkProfile (Some "a1.png")) eq_refl).
Defined.

End ReadLaws.

(** ** Provider notifications *)
Module ListenerLaws.

(** After a provider notification the user cell holds the session's user
    and the view is the dashboard when the notification carries a session
    and the login form when it carries none, whatever the backend answers
    to the reads it starts; no message is shown.  In [src/src/App.jsx] and
    the third version of [part_000] this holds whatever the state was; in
    [part_001] the callback writes the user cell only. *)
Theorem notification_decides_view (sb : Client) (session : option Session) :
  let view := match session with
              | Some _ => DashboardView
              | None => LoginView
              end in
  (forall s,
     let w := run (AppJsx.onAuthStateChange sb session) s in
     AppJsx.render (state w) = view
     /\ AppJsx.user (state w) = option_map session_user session
     /\ alerts (effects w) = [])
  /\ (forall s,
        let w := run (Part000C.onAuthStateChange session) s in
        Part000C.render (state w) = view
        /\ Part000C.user (state w) = option_map session_user session
        /\ effects w = [])
  /\ (forall s,
        let w := run (Part001.onAuthStateChange session) s in
        Part001.render (state w) = view
        /\ state w
           = Part001.mkState (Part001.email s) (Part001.password s)
               (option_map session_user session) (Part001.instrumentName s)
               (Part001.instruments s) (Part001.avatarUrl s)
               (Part001.uploading s)
        /\ effects w = []).
Proof.
  cbv zeta. repeat apply conj; intros s.
  - unfold AppJsx.onAuthStateChange, AppJsx.fetchProfile,
      AppJsx.fetchInstruments. js_run. destruct session as [sess|]; js_run;
      split_answers; repeat split.
  - destruct session; repeat split.
  - destruct session; repeat split.
Qed.

(** A notification without a session leaves [src/src/App.jsx] with no
    user, an empty cache and no avatar, and starts no request; delivered
    after [handleLogout], as the sign-out makes the provider do, it only
    lowers [loading]. *)
Theorem signed_out_notification (sb : Client) (s : AppJsx.State) :
  run (AppJsx.onAuthStateChange sb None) s
  = mkWorld
      (AppJsx.mkState (AppJsx.email s) (AppJsx.password s) None
         (AppJsx.instrumentName s) [] None (AppJsx.uploading s) false)
      []
  /\ state (run (AppJsx.onAuthStateChange sb None)
                (state (run AppJsx.handleLogout s)))
     = AppJsx.mkState (AppJsx.email s) (AppJsx.password s) None
         (AppJsx.instrumentName s) [] None (AppJsx.uploading s) false.
Proof. split; reflexivity. Qed.

(** A notification with a session, when both reads it starts succeed,
    leaves [src/src/App.jsx] with the session's user, the rows read, and
    the public URL of the stored avatar path (or no avatar when none is
    stored), whatever the cache and the avatar were. *)
Theorem signed_in_notification
  (sb : Client) (sess : Session) (data : list Row) (profile : Profile) :
  instruments_select sb (uid (session_user sess)) = Success data ->
  profiles_select_single sb (uid (session_user sess)) = Success profile ->
  forall s,
    state (run (AppJsx.onAuthStateChange sb (Some sess)) s)
    = AppJsx.mkState (AppJsx.email s) (AppJsx.password s)
        (Some (session_user sess)) (AppJsx.instrumentName s) data
        (option_map (storage_getPublicUrl sb) (stored_path (Success profile)))
        (AppJsx.uploading s) false.
Proof.
  intros Hi Hp s. unfold AppJsx.onAuthStateChange, AppJsx.fetchProfile,
    AppJsx.fetchInstruments. js_run. js_answer Hp. simpl.
  destruct (avatar_url profile) as [path|]; js_run.
  - destruct (truthy path); js_run; js_answer Hi; reflexivity.
  - js_answer Hi. reflexivity.
Qed.

Lemma signed_in_notification_witness :
  instruments_select Examples.storage_down (uid Examples.alice)
  = Success [Examples.piano; Examples.drums]
  /\ profiles_select_single Examples.storage_down (uid Examples.alice)
     = Success (mkProfile (Some "a1.png"))
  /\ state (run (AppJsx.onAuthStateChange Examples.storage_down
                   (Some (mkSession Examples.alice))) AppJsx.initial)
     = AppJsx.mkState "" "" (Some Examples.alice) ""
         [Examples.piano; Examples.drums] (Some Examples.alice_avatar)
         false false.
Proof.
  split; [reflexivity|]. split; [reflexivity|].
  apply (signed_in_notification Examples.storage_down
           (mkSession Examples.alice) eq_refl eq_refl AppJsx.initial).
Defined.

End ListenerLaws.

(** ** The effect on the user and the subscription *)
Module SubscriptionLaws.



Lemma notifications_run (ps : list Payload) :
  forall w : World Part001.State,
    Part001.notifications ps w
    = (Normal tt,
       mkWorld
         (Part001.mkState (Part001.email (state w)) (Part001.password (state w))
            (Part001.user (state w)) (Part001.instrumentName (state w))
            (Realtime.deliver (Part001.instruments (state w)) ps)
            (Part001.avatarUrl (state w)) (Part001.uploading (state w)))
         (effects w)).
Proof.
  induction ps as [|p ps IH]; intros w; simpl.
  - destruct w as [[] ?]. reflexivity.
  - unfold bind. unfold Part001.on_postgres_changes at 1.
    js_run. rewrite IH. reflexivity.
Qed.

(** In [part_001] a run of notifications performs no effect and writes
    the cache cell only; and after a bulk read that succeeds the cache is
    the rows read with the notifications applied to them in order,
    whatever it held before the read. *)
Theorem bulk_read_then_notifications
  (sb : Client) (u : User) (data : list Row) (ps : list Payload)
  (s : Part001.State) :
  Part001.user s = Some u ->
  instruments_select sb (uid u) = Success data ->
  run (Part001.notifications ps) s
  = mkWorld
      (Part001.mkState (Part001.email s) (Part001.password s) (Some u)
         (Part001.instrumentName s)
         (Realtime.deliver (Part001.instruments s) ps)
         (Part001.avatarUrl s) (Part001.uploading s))
      []
  /\ run (bind (Part001.fetchInstruments sb)
               (fun _ => Part001.notifications ps)) s
     = mkWorld
         (Part001.mkState (Part001.email s) (Part001.password s) (Some u)
            (Part001.instrumentName s) (Realtime.deliver data ps)
            (Part001.avatarUrl s) (Part001.uploading s))
         [InstrumentsSelect (uid u)].
Proof.
  intros Hu Hr. split.
  - unfold run. rewrite notifications_run. simpl. now rewrite Hu.
  - unfold run, bind at 1, Part001.fetchInstruments. js_run. js_answer Hu.
    js_answer Hr. rewrite notifications_run. simpl. now rewrite Hu.
Qed.

Lemma bulk_read_then_notifications_witness :
  Part001.user Examples.alice_home_001 = Some Examples.alice
  /\ instruments_select Examples.storage_down (uid Examples.alice)
     = Success [Examples.piano; Examples.drums]
  /\ Part001.instruments
       (state (run (bind (Part001.fetchInstruments Examples.storage_down)
                      (fun _ => Part001.notifications
                                  [DELETE Examples.piano;
                                   INSERT Examples.guitar]))
                   Examples.alice_home_001))
     = [Examples.drums; Examples.guitar].
Proof.
  destruct (@bulk_read_then_notifications Examples.storage_down
              Examples.alice [Examples.piano; Examples.drums]
              [DELETE Examples.piano; INSERT Examples.guitar]
              Examples.alice_home_001 eq_refl eq_refl) as [_ H].
  split; [reflexivity|]. split; [reflexivity|].
  rewrite H. reflexivity.
Defined.

End SubscriptionLaws.

(** ** The life of [src/src/App.jsx], continued *)
Module LifecycleLaws.
Import Lifecycle.

Lemma startup_witness :
  let tr := [(Examples.healthy, Mount)] in
  let a := mkApp (mkWorld AppJsx.initial
                    [AuthGetSession; AuthOnAuthStateChange]) true true in
  exec tr start = Some a
  /\ getSession_count (effects (world a)) = 1%nat
  /\ AppJsx.render (state (world a)) = LoadingView.
Proof.
  cbv zeta.
  destruct (@StartupFacts.app_jsx_startup [(Examples.healthy, Mount)]
              (mkApp (mkWorld AppJsx.initial
                        [AuthGetSession; AuthOnAuthStateChange]) true true)
              eq_refl) as [Hc Hv].
  split; [reflexivity|]. split; [exact Hc | apply Hv; reflexivity].
Defined.

Lemma handler_keeps_loading_false
  (sb : Client) (ev : Event) (w : World AppJsx.State) :
  AppJsx.loading (state w) = false ->
  AppJsx.loading (state (snd (handler sb ev w))) = false.
Proof.
  intros H.
  destruct ev; unfold handler, AppJsx.handleLogin, AppJsx.handleSignUp,
    AppJsx.handleGithubLogin, AppJsx.handleLogout, AppJsx.handleAvatarUpload,
    AppJsx.handleAddInstrument; js_run; split_answers; simpl;
    solve [exact H | reflexivity].
Qed.

Lemma listener_lowers_loading
  (sb : Client) (session : option Session) (w : World AppJsx.State) :
  AppJsx.loading (state (snd (AppJsx.onAuthStateChange sb session w))) = false.
Proof.
  unfold AppJsx.onAuthStateChange, AppJsx.fetchProfile,
    AppJsx.fetchInstruments; js_run; split_answers; reflexivity.
Qed.

Lemma step_keeps_loading_false (sb : Client) (ev : Event) (a a' : App) :
  AppJsx.loading (state (world a)) = false ->
  step sb ev a = Some a' ->
  AppJsx.loading (state (world a')) = false.
Proof.
  intros Hl Hs.
  destruct ev; unfold step in Hs;
    try (match type of Hs with
         | context [handler ?sb ?ev] =>
             pose proof (handler_keeps_loading_false sb ev (world a) Hl) as Hk
         end;
         destruct (offers (state (world a)) _); [|discriminate];
         injection Hs as <-; exact Hk).
  - destruct (mounted a); [discriminate|]. injection Hs as <-. exact Hl.
  - destruct (session_pending a); [|discriminate]. injection Hs as <-.
    reflexivity.
  - destruct (mounted a); [|discriminate]. injection Hs as <-.
    simpl. unfold after. apply listener_lowers_loading.
Qed.

Lemma resolution_lowers_loading (sb : Client) (ev : Event) (a a' : App) :
  resolves ev = true ->
  step sb ev a = Some a' ->
  AppJsx.loading (state (world a')) = false.
Proof.
  intros Hr Hs. destruct ev; try discriminate; simpl in Hs.
  - destruct (session_pending a); [|discriminate]. injection Hs as <-.
    reflexivity.
  - destruct (mounted a); [|discriminate]. injection Hs as <-.
    simpl. unfold after. apply listener_lowers_loading.
Qed.

(** Once the initial session fetch has resolved or the provider has
    notified, [src/src/App.jsx] is never left on the loading view again:
    every handler that raises [loading] lowers it before it ends. *)
Theorem loading_view_never_returns
  (sb : Client) (ev : Event) (tr : list (Client * Event)) (a a1 a' : App) :
  resolves ev = true ->
  step sb ev a = Some a1 ->
  exec tr a1 = Some a' ->
  AppJsx.loading (state (world a')) = false
  /\ AppJsx.render (state (world a')) <> LoadingView.
Proof.
  intros Hr Hs He.
  assert (Hl : AppJsx.loading (state (world a')) = false).
  { pose proof (resolution_lowers_loading sb ev a Hr Hs) as H1.
    clear Hs Hr. revert a1 H1 He.
    induction tr as [|[sb' ev'] tr IH]; intros a1 H1 He; simpl in He.
    - now injection He as <-.
    - destruct (step sb' ev' a1) as [a2|] eqn:Hs; [|discriminate].
      apply (IH a2); [|exact He].
      eapply step_keeps_loading_false; eauto. }
  split; [exact Hl|]. unfold AppJsx.render. rewrite Hl.
  destruct (AppJsx.user (state (world a'))); discriminate.
Qed.

Lemma loading_view_never_returns_witness :
  let a := mkApp (mkWorld AppJsx.initial
                    [AuthGetSession; AuthOnAuthStateChange]) true true in
  let a1 := mkApp (mkWorld (AppJsx.mkState "" "" None "" [] None false false)
                     [AuthGetSession; AuthOnAuthStateChange]) true false in
  let a' := mkApp (mkWorld (AppJsx.mkState "" "" None "" [] None false false)
                     [AuthGetSession; AuthOnAuthStateChange;
                      AuthSignInWithPassword "" "";
                      Alert "Invalid login credentials"]) true false in
  resolves (GetSessionResolved None) = true
  /\ step Examples.healthy (GetSessionResolved None) a = Some a1
  /\ exec [(Examples.failing, ClickLogin)] a1 = Some a'
  /\ AppJsx.render (state (world a')) <> LoadingView.
Proof.
  cbv zeta. split; [reflexivity|]. split; [reflexivity|].
  split; [reflexivity|].
  apply (@loading_view_never_returns Examples.healthy
           (GetSessionResolved None) [(Examples.failing, ClickLogin)]
           (mkApp (mkWorld AppJsx.initial
                     [AuthGetSession; AuthOnAuthStateChange]) true true)
           _ _ eq_refl eq_refl eq_refl).
Defined.

Lemma handler_writes (sb : Client) (ev : Event) (w : World AppJsx.State) :
  let s' := state (snd (handler sb ev w)) in
  (sets_user ev = false -> AppJsx.user s' = AppJsx.user (state w))
  /\ (sets_instruments ev = false ->
      AppJsx.instruments s' = AppJsx.instruments (state w))
  /\ (sets_avatarUrl ev = false ->
      AppJsx.avatarUrl s' = AppJsx.avatarUrl (state w)).
Proof.
  cbv zeta.
  destruct ev; unfold handler, AppJsx.handleLogin, AppJsx.handleSignUp,
    AppJsx.handleGithubLogin, AppJsx.handleLogout, AppJsx.handleAvatarUpload,
    AppJsx.handleAddInstrument; js_run; split_answers_eq; simpl;
    repeat split; intros; try discriminate; congruence.
Qed.

(** In [src/src/App.jsx] the user cell is written only when the session
    fetch resolves, when the provider notifies and on logout; the row
    cache only when the provider notifies and on logout; the avatar URL
    only then and by the upload.  Signing in, signing up and adding a row
    change none of the three. *)
Theorem cells_written_by (sb : Client) (ev : Event) (a a' : App) :
  step sb ev a = Some a' ->
  (sets_user ev = false ->
   AppJsx.user (state (world a')) = AppJsx.user (state (world a)))
  /\ (sets_instruments ev = false ->
      AppJsx.instruments (state (world a'))
      = AppJsx.instruments (state (world a)))
  /\ (sets_avatarUrl ev = false ->
      AppJsx.avatarUrl (state (world a'))
      = AppJsx.avatarUrl (state (world a))).
Proof.
  intros Hs.
  destruct ev; unfold step in Hs;
    try (match type of Hs with
         | context [handler ?sb ?ev] =>
             pose proof (handler_writes sb ev (world a)) as Hk
         end;
         destruct (offers (state (world a)) _); [|discriminate];
         injection Hs as <-; exact Hk).
  - destruct (mounted a); [discriminate|]. injection Hs as <-.
    repeat split.
  - destruct (session_pending a); [|discriminate]. injection Hs as <-.
    repeat split; intros; try discriminate; reflexivity.
  - destruct (mounted a); [|discriminate]. injection Hs as <-.
    repeat split; intros; discriminate.
Qed.

Lemma cells_written_by_witness :
  let a := mkApp (mkWorld Examples.alice_typed []) true false in
  let a' := mkApp (mkWorld Examples.alice_home
                     [InstrumentsInsert "oboe" "a1"]) true false in
  step Examples.healthy ClickAdd a = Some a'
  /\ sets_user ClickAdd = false
  /\ sets_instruments ClickAdd = false
  /\ AppJsx.user (state (world a')) = Some Examples.alice
  /\ AppJsx.instruments (state (world a')) = [Examples.guitar].
Proof.
  cbv zeta.
  destruct (@cells_written_by Examples.healthy ClickAdd
              (mkApp (mkWorld Examples.alice_typed []) true false)
              (mkApp (mkWorld Examples.alice_home
                        [InstrumentsInsert "oboe" "a1"]) true false)
              eq_refl) as [Hu [Hi _]].
  split; [reflexivity|]. split; [reflexivity|]. split; [reflexivity|].
  split; [apply Hu; reflexivity | apply Hi; reflexivity].
Defined.

End LifecycleLaws.
